(** * youtubecustom: reshaping of YouTube Data API responses into tables

    A shallow embedding of [notebooks/youtubecustom.py]:
    [get_video_categories], [get_most_popular_videos] and
    [get_top_level_comments].  The three functions call an API client once,
    flatten the ["items"] of the response with [pandas.json_normalize] and
    select, rename and stamp columns.

    The API client, the exception classes and the pandas operations are
    libraries the module imports; they are modelled here as far as the three
    functions use them. *)

From Stdlib Require Import List String Ascii ZArith Bool Arith Lia Permutation.
From Stdlib Require Import Sorted.
Import ListNotations.
Local Open Scope string_scope.
Local Open Scope list_scope.

(** ** Python values *)

(** The values a parsed JSON response is made of.  [JNull] is Python's [None];
    a [JObj] carries the items of a [dict] in insertion order (in a real
    [dict] the keys are pairwise distinct).  Numbers are kept as integers. *)
Unset Elimination Schemes.
Inductive json : Type :=
| JNull
| JBool (b : bool)
| JNum (n : Z)
| JStr (s : string)
| JList (l : list json)
| JObj (kvs : list (string * json)).
Set Elimination Schemes.

(** Induction on Python values, through the lists they nest. *)

Section JsonInd.
Variable P : json -> Prop.
Hypothesis Hnull : P JNull.
Hypothesis Hbool : forall b, P (JBool b).
Hypothesis Hnum : forall n, P (JNum n).
Hypothesis Hstr : forall s, P (JStr s).
Hypothesis Hlist : forall l, Forall P l -> P (JList l).
Hypothesis Hobj : forall kvs, Forall (fun kv => P (snd kv)) kvs -> P (JObj kvs).

Fixpoint json_ind (j : json) : P j :=
  match j with
  | JNull => Hnull
  | JBool b => Hbool b
  | JNum n => Hnum n
  | JStr s => Hstr s
  | JList l =>
      Hlist l ((fix all (l : list json) : Forall P l :=
                  match l with
                  | [] => Forall_nil _
                  | x :: r => Forall_cons x (json_ind x) (all r)
                  end) l)
  | JObj kvs =>
      Hobj kvs ((fix all (l : list (string * json))
                   : Forall (fun kv => P (snd kv)) l :=
                   match l with
                   | [] => Forall_nil _
                   | kv :: r => Forall_cons kv (json_ind (snd kv)) (all r)
                   end) kvs)
  end.
End JsonInd.

Definition is_dict (v : json) : bool :=
  match v with JObj _ => true | _ => false end.

(** An insertion-ordered [dict] with string keys. *)
Definition dict (A : Type) : Type := list (string * A).

Definition mem (k : string) (l : list string) : bool :=
  existsb (String.eqb k) l.

Section Dict.
Context {A : Type}.

Definition keys (d : dict A) : list string := map fst d.

Fixpoint dict_get (k : string) (d : dict A) : option A :=
  match d with
  | [] => None
  | (k', v) :: rest => if String.eqb k k' then Some v else dict_get k rest
  end.

(** [d[k] = v]: an existing key keeps its position, a new key goes last. *)
Fixpoint dict_set (k : string) (v : A) (d : dict A) : dict A :=
  match d with
  | [] => [(k, v)]
  | (k', v') :: rest =>
      if String.eqb k k' then (k, v) :: rest else (k', v') :: dict_set k v rest
  end.

(** [{**d, **e}] *)
Definition dict_update (d e : dict A) : dict A :=
  fold_left (fun acc kv => dict_set (fst kv) (snd kv) acc) e d.
End Dict.

(** ** Exceptions *)

(** The exception classes that matter to the two [except] clauses, with
    [googleapiclient.errors] as far as [HttpError] is concerned.
    [UserException] stands for any other class derived from [Exception]. *)
Inductive pyclass : Type :=
| BaseException
| KeyboardInterrupt
| SystemExit
| Exception
| KeyError
| TypeError
| AttributeError
| ValueError
| NotImplementedError
| OSError
| GoogleApiError            (* googleapiclient.errors.Error *)
| HttpError
| BatchError
| ResumableUploadError
| UserException (name : string).

Definition pyclass_eqb (c d : pyclass) : bool :=
  match c, d with
  | BaseException, BaseException
  | KeyboardInterrupt, KeyboardInterrupt
  | SystemExit, SystemExit
  | Exception, Exception
  | KeyError, KeyError
  | TypeError, TypeError
  | AttributeError, AttributeError
  | ValueError, ValueError
  | NotImplementedError, NotImplementedError
  | OSError, OSError
  | GoogleApiError, GoogleApiError
  | HttpError, HttpError
  | BatchError, BatchError
  | ResumableUploadError, ResumableUploadError => true
  | UserException a, UserException b => String.eqb a b
  | _, _ => false
  end.

(** The base class (the intermediate [LookupError] and [RuntimeError] are
    skipped). *)
Definition base (c : pyclass) : option pyclass :=
  match c with
  | BaseException => None
  | KeyboardInterrupt | SystemExit | Exception => Some BaseException
  | KeyError | TypeError | AttributeError | ValueError | OSError
  | GoogleApiError | UserException _ => Some Exception
  | NotImplementedError => Some Exception
  | HttpError => Some GoogleApiError
  | BatchError | ResumableUploadError => Some HttpError
  end.

Fixpoint mro (fuel : nat) (c : pyclass) : list pyclass :=
  c :: match fuel with
       | O => []
       | S fuel' => match base c with Some b => mro fuel' b | None => [] end
       end.

Definition issubclass (c d : pyclass) : bool :=
  existsb (pyclass_eqb d) (mro 4 c).

(** A raised exception: its class and what [str] gives on it.  For the
    errors pandas and the interpreter raise, [exn_str] keeps the gist of the
    message, not its exact text. *)
Record exn : Type := mkExn { exn_class : pyclass; exn_str : string }.

Definition isinstance (e : exn) (c : pyclass) : bool :=
  issubclass (exn_class e) c.

(** ** Outcomes *)

(** What running a piece of Python gives: a value, a raised exception, or
    [OutOfModel] where pandas is given data this development does not
    describe (a list nested directly in the list handed to
    [json_normalize], a column label that occurs twice where a single
    column is asked for). *)
Inductive outcome (A : Type) : Type :=
| Return (a : A)
| Raise (e : exn)
| OutOfModel.
Arguments Return {A} a.
Arguments Raise {A} e.
Arguments OutOfModel {A}.

Definition bind {A B : Type} (m : outcome A) (k : A -> outcome B) : outcome B :=
  match m with
  | Return a => k a
  | Raise e => Raise e
  | OutOfModel => OutOfModel
  end.

Notation "x <- m ;; k" := (bind m (fun x => k))
  (at level 61, m at next level, right associativity).
Notation "m ;;; k" := (bind m (fun _ => k))
  (at level 61, right associativity).

(** [try: body  except cls: handler] *)
Definition try_except {A : Type} (body : outcome A) (cls : pyclass)
    (handler : exn -> outcome A) : outcome A :=
  match body with
  | Raise e => if isinstance e cls then handler e else Raise e
  | other => other
  end.

(** ** Strings *)

Fixpoint starts_with (p s : string) : bool :=
  match p, s with
  | EmptyString, _ => true
  | String a p', String b s' => Ascii.eqb a b && starts_with p' s'
  | String _ _, EmptyString => false
  end.

(** [needle in hay] on [str]. *)
Fixpoint str_contains (needle hay : string) : bool :=
  starts_with needle hay ||
  match hay with
  | EmptyString => false
  | String _ rest => str_contains needle rest
  end.

(** [repr] of a list of strings, as pandas prints missing labels. *)
Definition repr_labels (l : list string) : string :=
  ("[" ++ String.concat ", " (map (fun s => "'" ++ s ++ "'") l) ++ "]")%string.

(** ** Subscripts and membership on Python values *)

(** [v[key]] for a string [key]. *)
Definition getitem (v : json) (key : string) : outcome json :=
  match v with
  | JObj kvs =>
      match dict_get key kvs with
      | Some x => Return x
      | None => Raise (mkExn KeyError ("'" ++ key ++ "'")%string)
      end
  | JList _ =>
      Raise (mkExn TypeError "list indices must be integers or slices, not str")
  | JStr _ => Raise (mkExn TypeError "string indices must be integers")
  | JNull => Raise (mkExn TypeError "'NoneType' object is not subscriptable")
  | JBool _ => Raise (mkExn TypeError "'bool' object is not subscriptable")
  | JNum _ => Raise (mkExn TypeError "'int' object is not subscriptable")
  end.

(** [key in v] for a string [key]. *)
Definition py_in (key : string) (v : json) : outcome bool :=
  match v with
  | JObj kvs => Return (mem key (keys kvs))
  | JList l =>
      Return (existsb (fun x => match x with
                                | JStr s => String.eqb key s
                                | _ => false
                                end) l)
  | JStr s => Return (str_contains key s)
  | JNull => Raise (mkExn TypeError "argument of type 'NoneType' is not iterable")
  | JBool _ => Raise (mkExn TypeError "argument of type 'bool' is not iterable")
  | JNum _ => Raise (mkExn TypeError "argument of type 'int' is not iterable")
  end.

(** ** pandas.json_normalize *)

(** [_normalise_json]: the key of a nested value is the path to it joined
    with ["."]; the first component has no leading separator (pandas 2; pandas
    1.5 differs only on keys that begin with the separator). *)
Definition new_key (key_string key : string) : string :=
  match key_string with
  | EmptyString => key
  | _ => (key_string ++ "." ++ key)%string
  end.

Fixpoint normalise_json (data : json) (key_string : string)
    (normalized_dict : dict json) {struct data} : dict json :=
  match data with
  | JObj kvs =>
      (fix items (kvs : list (string * json)) (acc : dict json) {struct kvs}
         : dict json :=
         match kvs with
         | [] => acc
         | (key, value) :: rest =>
             items rest (normalise_json value (new_key key_string key) acc)
         end) kvs normalized_dict
  | _ => dict_set key_string data normalized_dict
  end.

(** [_normalise_json_ordered]: the top-level fields that are not objects come
    first, then the flattened nested objects. *)
Definition normalise_json_ordered (data : list (string * json)) : dict json :=
  let top_dict_ := filter (fun kv => negb (is_dict (snd kv))) data in
  let nested_dict_ :=
    normalise_json (JObj (filter (fun kv => is_dict (snd kv)) data)) "" [] in
  dict_update top_dict_ nested_dict_.

(** [_simple_json_normalize] on one element of the list: an object is
    flattened, a scalar gives an empty record; a nested list is not
    described ([None]). *)
Definition simple_json_normalize (row : json) : option (dict json) :=
  match row with
  | JObj kvs => Some (normalise_json_ordered kvs)
  | JList _ => None
  | _ => Some []
  end.

Fixpoint all_some {A : Type} (l : list (option A)) : option (list A) :=
  match l with
  | [] => Some []
  | Some a :: rest =>
      match all_some rest with Some r => Some (a :: r) | None => None end
  | None :: _ => None
  end.

(** ** Tables *)

(** A cell holds a Python value or the missing-value marker. *)
Inductive cell : Type :=
| NaN
| Py (v : json).

(** A [DataFrame]: the row labels and the columns, each with a label and one
    cell per row.  Column labels may repeat. *)
Record DataFrame : Type := mkDF {
  df_index : list nat;
  df_data : list (string * list cell)
}.

Definition columns (df : DataFrame) : list string := map fst (df_data df).
Definition nrows (df : DataFrame) : nat := List.length (df_index df).

(** [pd.DataFrame()] *)
Definition empty_DataFrame : DataFrame := mkDF [] [].

(** The labels of [l] in order of first appearance. *)
Fixpoint fast_unique (seen l : list string) : list string :=
  match l with
  | [] => []
  | k :: rest =>
      if mem k seen then fast_unique seen rest
      else k :: fast_unique (k :: seen) rest
  end.

Definition cell_of (o : option json) : cell :=
  match o with Some v => Py v | None => NaN end.

(** [pd.DataFrame(records)] for a list of dicts: one row per record, the
    columns are the keys in order of first appearance, a key a record lacks
    gives [NaN].  The cells are the values of the records as Python holds
    them: the dtype pandas then infers for a column is not represented.  It
    leaves the labels, the rows and their order as they are, and the cells of
    the columns described by [kept_by_inference] below; a column of numbers
    with a [None] or a missing value becomes [float64] ([None] turns into
    [NaN], the integers into floats), which this table does not show. *)
Definition DataFrame_of_records (records : list (dict json)) : DataFrame :=
  mkDF (seq 0 (List.length records))
       (map (fun c => (c, map (fun r => cell_of (dict_get c r)) records))
            (fast_unique [] (flat_map keys records))).

Definition json_normalize (data : json) : outcome DataFrame :=
  match data with
  | JList [] => Return empty_DataFrame
  | JList l =>
      match all_some (map simple_json_normalize l) with
      | Some records => Return (DataFrame_of_records records)
      | None => OutOfModel
      end
  | JObj kvs => Return (DataFrame_of_records [normalise_json_ordered kvs])
  | _ => Raise (mkExn NotImplementedError "")
  end.

(** [label in df.columns] *)
Definition in_columns (label : string) (df : DataFrame) : bool :=
  mem label (columns df).

Definition missing_labels (labels : list string) (df : DataFrame) : list string :=
  filter (fun l => negb (in_columns l df)) labels.

(** [df.drop(columns=labels)]: every label has to be there. *)
Definition drop (labels : list string) (df : DataFrame) : outcome DataFrame :=
  match missing_labels labels df with
  | [] =>
      Return (mkDF (df_index df)
                   (filter (fun c => negb (mem (fst c) labels)) (df_data df)))
  | missing =>
      Raise (mkExn KeyError (repr_labels missing ++ " not found in axis")%string)
  end.

(** [df.rename(columns=mapper)]: labels the mapper does not have are kept. *)
Definition rename_label (mapper : dict string) (label : string) : string :=
  match dict_get label mapper with
  | Some label' => label'
  | None => label
  end.

Definition rename (mapper : dict string) (df : DataFrame) : DataFrame :=
  mkDF (df_index df)
       (map (fun c => (rename_label mapper (fst c), snd c)) (df_data df)).

(** Writing a whole column: an existing label is overwritten in place, a new
    one is appended. *)
Definition set_column (label : string) (values : list cell) (df : DataFrame)
    : DataFrame :=
  if in_columns label df then
    mkDF (df_index df)
         (map (fun c => if String.eqb (fst c) label then (fst c, values) else c)
              (df_data df))
  else
    mkDF (df_index df) (df_data df ++ [(label, values)]).

(** [df[label] = value] with a scalar, and [df.assign(label=value)], which
    does the same on a copy. *)
Definition setitem (label : string) (value : cell) (df : DataFrame) : DataFrame :=
  set_column label (repeat value (nrows df)) df.

Definition assign := setitem.

(** [df[labels]] with a list of labels. *)
Definition getitem_list (labels : list string) (df : DataFrame)
    : outcome DataFrame :=
  match missing_labels labels df with
  | [] =>
      Return (mkDF (df_index df)
                   (flat_map (fun l => filter (fun c => String.eqb (fst c) l)
                                              (df_data df)) labels))
  | missing =>
      Raise (mkExn KeyError (repr_labels missing ++ " not in index")%string)
  end.

(** [df[label]] with one label, as a [Series] (its cells). *)
Definition getitem_column (label : string) (df : DataFrame)
    : outcome (list cell) :=
  match filter (fun c => String.eqb (fst c) label) (df_data df) with
  | [] => Raise (mkExn KeyError ("'" ++ label ++ "'")%string)
  | [c] => Return (snd c)
  | _ => OutOfModel
  end.

(** [Series.apply(f)] for an [f] that gives Python values. *)
Definition apply (f : cell -> json) (series : list cell) : list cell :=
  map (fun y => Py (f y)) series.

(** *** sort_values *)

(** The sort key of a cell of an integer column. *)
Definition int_of_cell (c : cell) : option Z :=
  match c with
  | Py (JNum n) => Some n
  | _ => None
  end.

(** Insertion of a (key, position) pair in a list sorted by descending key;
    among equal keys the earlier position stays first. *)
Fixpoint insert_desc (x : Z * nat) (l : list (Z * nat)) : list (Z * nat) :=
  match l with
  | [] => [x]
  | y :: rest =>
      if Z.ltb (fst x) (fst y) then y :: insert_desc x rest else x :: y :: rest
  end.

(** The positions of [ks] in descending order of key. *)
Definition argsort_desc (ks : list Z) : list nat :=
  map snd (fold_right insert_desc [] (combine ks (seq 0 (List.length ks)))).

Definition take {A : Type} (d : A) (positions : list nat) (l : list A) : list A :=
  map (fun p => nth p l d) positions.

(** [df.sort_values(by, ascending=False)] on an integer column: a new table
    with the rows, labels included, in descending order of the column.
    pandas sorts with quicksort, which promises nothing on the order of equal
    keys; here they keep their order.  Columns that are not integer columns
    are not described. *)
Definition sort_values_desc (by_ : string) (df : DataFrame) : outcome DataFrame :=
  match filter (fun c => String.eqb (fst c) by_) (df_data df) with
  | [] => Raise (mkExn KeyError ("'" ++ by_ ++ "'")%string)
  | [c] =>
      match all_some (map int_of_cell (snd c)) with
      | Some ks =>
          let positions := argsort_desc ks in
          Return (mkDF (take 0%nat positions (df_index df))
                       (map (fun c => (fst c, take NaN positions (snd c)))
                            (df_data df)))
      | None => OutOfModel
      end
  | _ =>
      Raise (mkExn ValueError ("The column label '" ++ by_ ++ "' is not unique.")%string)
  end.

(** ** The API client *)

(** The client handle: each operation builds the request from its keyword
    arguments and executes it, which gives the parsed response or raises. *)
Record Client : Type := mkClient {
  (* videoCategories().list(part, regionCode, prettyPrint).execute() *)
  videoCategories_list : string -> string -> bool -> outcome json;
  (* videos().list(part, chart, regionCode, maxResults, videoCategoryId).execute() *)
  videos_list : string -> string -> string -> Z -> option string -> outcome json;
  (* commentThreads().list(part, videoId, maxResults, textFormat).execute() *)
  commentThreads_list : string -> string -> Z -> string -> outcome json
}.

(** ** get_video_categories *)

Definition get_video_categories (region_code : string) (youtube : Client)
    : outcome DataFrame :=
  response <- videoCategories_list youtube "snippet" region_code true ;;
  items <- getitem response "items" ;;
  df <- json_normalize items ;;
  df <- drop ["kind"; "etag"; "snippet.channelId"] df ;;
  let df := rename [("snippet.title", "category_title");
                    ("snippet.assignable", "assignable")] df in
  let df := setitem "region_code" (Py (JStr region_code)) df in
  Return df.

(** ** get_most_popular_videos *)

(** An optional string argument as the Python value it is. *)
Definition py_of_option (o : option string) : json :=
  match o with Some s => JStr s | None => JNull end.

Definition str_of_option (o : option string) : string :=
  match o with Some s => s | None => "None" end.

Definition newline : string := String (ascii_of_nat 10) EmptyString.

Definition video_renames : dict string :=
  [("snippet.publishedAt", "published_at");
   ("snippet.channelTitle", "channel_title");
   ("snippet.localized.title", "title");
   ("snippet.localized.description", "description");
   ("contentDetails.duration", "duration");
   ("statistics.viewCount", "view_count");
   ("statistics.likeCount", "like_count");
   ("statistics.favoriteCount", "favorite_count");
   ("statistics.commentCount", "comment_count")].

(** The [try] block. *)
Definition popular_videos_try (region_code : string) (youtube : Client)
    (video_category_id : option string) (max_results : Z) : outcome DataFrame :=
  response <- videos_list youtube "snippet, statistics,contentDetails, topicDetails"
                "mostPopular" region_code max_results video_category_id ;;
  items <- getitem response "items" ;;
  df <- json_normalize items ;;
  df <- drop ["etag"; "kind"; "snippet.channelId"] df ;;
  let selected_columns :=
    ["id"; "snippet.publishedAt"; "snippet.channelTitle";
     "snippet.localized.title"; "snippet.localized.description";
     "contentDetails.duration"] in
  let statistics_columns :=
    filter (fun col => str_contains "statistics" col) (columns df) in
  let selected_columns := selected_columns ++ statistics_columns in
  df <- getitem_list selected_columns df ;;
  let df := rename video_renames df in
  let df := setitem "region_code" (Py (JStr region_code)) df in
  let df := setitem "video_category_id" (Py (py_of_option video_category_id)) df in
  Return df.

(** What the function gives back together with what it printed (the
    arguments of its [print] calls). *)
Definition printing (A : Type) : Type := (list string * outcome A)%type.

(** [try: body  except cls as e: handler], the handler may print. *)
Definition try_except_printing {A : Type} (body : outcome A) (cls : pyclass)
    (handler : exn -> printing A) : printing A :=
  match body with
  | Raise e => if isinstance e cls then handler e else ([], Raise e)
  | other => ([], other)
  end.

Definition get_most_popular_videos (region_code : string) (youtube : Client)
    (video_category_id : option string) (max_results : Z) (verbose : bool)
    : printing DataFrame :=
  try_except_printing
    (popular_videos_try region_code youtube video_category_id max_results)
    Exception
    (fun e =>
       ((if verbose
         then [("The query for region_code=" ++ region_code
                ++ " and video_category_id=" ++ str_of_option video_category_id
                ++ " failed with the following error:" ++ newline
                ++ exn_str e ++ newline)%string]
         else []),
        Return empty_DataFrame)).

(** ** get_top_level_comments *)

(** [lambda y: len(y) if type(y) == list else 0] *)
Definition len_if_list (y : cell) : Z :=
  match y with
  | Py (JList l) => Z.of_nat (List.length l)
  | _ => 0%Z
  end.

(** [df.assign(number_replies=lambda x: x['replies.comments'].apply(...))] *)
Definition assign_number_replies (df : DataFrame) : outcome DataFrame :=
  series <- getitem_column "replies.comments" df ;;
  Return (set_column "number_replies"
            (apply (fun y => JNum (len_if_list y)) series) df).

(** The expression statement of lines 148-150: the table with
    [number_replies], sorted by it in descending order. *)
Definition replies_ranking (df : DataFrame) : outcome DataFrame :=
  df <- assign_number_replies df ;;
  sort_values_desc "number_replies" df.

Definition comment_renames : dict string :=
  [("id", "comment_id");
   ("snippet.topLevelComment.snippet.likeCount", "like_count");
   ("snippet.topLevelComment.snippet.textDisplay", "comment_text")].

(** [selected_cols] once the [if] of lines 142-143 has run. *)
Definition selected_cols (df_comments : DataFrame) : list string :=
  let selected_cols := ["comment_id"; "like_count"; "comment_text"] in
  if in_columns "replies.comments" df_comments
  then selected_cols ++ ["replies.comments"]
  else selected_cols.

(** The table of line 145, before the [if] that follows. *)
Definition comments_table (video_id : string) (response : json)
    : outcome DataFrame :=
  items <- getitem response "items" ;;
  df <- json_normalize items ;;
  let df_comments := rename comment_renames df in
  df <- getitem_list (selected_cols df_comments) df_comments ;;
  Return (assign "video_id" (Py (JStr video_id)) df).

(** The [try] block.  The value of [replies_ranking] is computed and dropped:
    the statement binds no name. *)
Definition top_level_comments_try (video_id : string) (youtube_client : Client)
    : outcome (DataFrame * json) :=
  response <- commentThreads_list youtube_client "id,replies,snippet"
                video_id 100%Z "plainText" ;;
  df_comments <- comments_table video_id response ;;
  (if in_columns "replies.comments" df_comments
   then replies_ranking df_comments ;;; Return tt
   else Return tt) ;;;
  has_token <- py_in "nextPageToken" response ;;
  next_page_token <-
    (if has_token : bool then getitem response "nextPageToken" else Return JNull) ;;
  Return (df_comments, next_page_token).

(** [try: body  except cls: handler] *)
Definition get_top_level_comments (video_id : string) (youtube_client : Client)
    : outcome (DataFrame * json) :=
  try_except (top_level_comments_try video_id youtube_client) HttpError
    (fun _ => Return (empty_DataFrame, JNull)).

(** ** Reading a table by row label and column label *)

Fixpoint position_of (row : nat) (index : list nat) : option nat :=
  match index with
  | [] => None
  | r :: rest =>
      if Nat.eqb row r then Some 0%nat
      else option_map S (position_of row rest)
  end.

(** [df.loc[row, col]]: the cell of the row labelled [row] in the first
    column labelled [col]. *)
Definition loc (df : DataFrame) (row : nat) (col : string) : option cell :=
  match position_of row (df_index df), dict_get col (df_data df) with
  | Some p, Some values => nth_error values p
  | _, _ => None
  end.

(** The record [json_normalize] makes of one element of ["items"]. *)
Definition record_of (item : json) : dict json :=
  match simple_json_normalize item with
  | Some r => r
  | None => []
  end.

(** Every column has one cell per row. *)
Definition well_shaped (df : DataFrame) : Prop :=
  Forall (fun c => List.length (snd c) = nrows df) (df_data df).

(** ** Responses as the API documents them *)

(** The value at a path of field names. *)
Fixpoint lookup_path (path : list string) (v : json) : option json :=
  match path with
  | [] => Some v
  | k :: rest =>
      match v with
      | JObj kvs =>
          match dict_get k kvs with
          | Some x => lookup_path rest x
          | None => None
          end
      | _ => None
      end
  end.

(** The column label [json_normalize] gives the value at a path. *)
Definition path_label (path : list string) : string :=
  fold_left new_key path "".

(** The item has a value at the path that is not itself an object. *)
Definition has_path (item : json) (path : list string) : bool :=
  match lookup_path path item with
  | Some v => negb (is_dict v)
  | None => false
  end.

(** The item is an object with a value at each of the paths; other fields
    are free. *)
Definition item_has_paths (paths : list (list string)) (item : json) : bool :=
  is_dict item && forallb (has_path item) paths.

(** A response with an array under ["items"] whose elements all have the
    paths. *)
Definition response_has_paths (paths : list (list string)) (response : json)
    : bool :=
  match response with
  | JObj kvs =>
      match dict_get "items" kvs with
      | Some (JList items) => forallb (item_has_paths paths) items
      | _ => false
      end
  | _ => false
  end.

(** A [videoCategory] resource has [kind], [etag] and [snippet.channelId]. *)
Definition category_paths : list (list string) :=
  [["kind"]; ["etag"]; ["snippet"; "channelId"]].

Definition category_response_ok : json -> bool :=
  response_has_paths category_paths.

(** A [video] resource as [get_most_popular_videos] reads it. *)
Definition video_paths : list (list string) :=
  [["etag"]; ["kind"]; ["snippet"; "channelId"]; ["id"];
   ["snippet"; "publishedAt"]; ["snippet"; "channelTitle"];
   ["snippet"; "localized"; "title"]; ["snippet"; "localized"; "description"];
   ["contentDetails"; "duration"]].

Definition video_response_ok : json -> bool :=
  response_has_paths video_paths.

(** A [commentThread] resource as [get_top_level_comments] reads it. *)
Definition comment_paths : list (list string) :=
  [["id"];
   ["snippet"; "topLevelComment"; "snippet"; "likeCount"];
   ["snippet"; "topLevelComment"; "snippet"; "textDisplay"]].

Definition comment_response_ok : json -> bool :=
  response_has_paths comment_paths.

(** A client whose every operation gives [r]. *)
Definition constant_client (r : outcome json) : Client :=
  mkClient (fun _ _ _ => r) (fun _ _ _ _ _ => r) (fun _ _ _ _ => r).

(** What a column of a table holds for the element of ["items"] it is read
    from. *)
Definition item_cell (k : string) (item : json) : cell :=
  cell_of (dict_get k (record_of item)).

(** The fixed columns of [get_most_popular_videos], renamed. *)
Definition video_fixed_columns : list string :=
  ["id"; "published_at"; "channel_title"; "title"; "description"; "duration"].

(** ** Sample responses *)

Definition sample_category (id title : string) : json :=
  JObj [("kind", JStr "youtube#videoCategory");
        ("etag", JStr "grPOPYEUUZN3ltuDUGEWlrTR90U");
        ("id", JStr id);
        ("snippet", JObj [("title", JStr title);
                          ("assignable", JBool true);
                          ("channelId", JStr "UCBR8-60-B28hp2BmDPdntcQ")])].

Definition sample_category_response : json :=
  JObj [("kind", JStr "youtube#videoCategoryListResponse");
        ("items", JList [sample_category "1" "Film & Animation";
                         sample_category "2" "Autos & Vehicles"])].

(** A category response with no item. *)
Definition empty_items_response : json := JObj [("items", JList [])].

Definition sample_video (id : string) : json :=
  JObj [("kind", JStr "youtube#video");
        ("etag", JStr "9Q0zS8Yl3cM");
        ("id", JStr id);
        ("snippet", JObj [("publishedAt", JStr "2023-03-24T10:00:00Z");
                          ("channelId", JStr "UCBR8-60-B28hp2BmDPdntcQ");
                          ("channelTitle", JStr "channel");
                          ("localized", JObj [("title", JStr "title");
                                              ("description", JStr "text")])]);
        ("contentDetails", JObj [("duration", JStr "PT4M13S")]);
        ("statistics", JObj [("viewCount", JStr "1000")])].

Definition sample_video_response : json :=
  JObj [("items", JList [sample_video "a"; sample_video "b"])].

Definition sample_videos_table : DataFrame :=
  mkDF [0; 1]%nat
    [("id", [Py (JStr "a"); Py (JStr "b")]);
     ("published_at", [Py (JStr "2023-03-24T10:00:00Z");
                       Py (JStr "2023-03-24T10:00:00Z")]);
     ("channel_title", [Py (JStr "channel"); Py (JStr "channel")]);
     ("title", [Py (JStr "title"); Py (JStr "title")]);
     ("description", [Py (JStr "text"); Py (JStr "text")]);
     ("duration", [Py (JStr "PT4M13S"); Py (JStr "PT4M13S")]);
     ("view_count", [Py (JStr "1000"); Py (JStr "1000")]);
     ("region_code", [Py (JStr "GB"); Py (JStr "GB")]);
     ("video_category_id", [Py (JStr "10"); Py (JStr "10")])].

Definition sample_comment (id : string) (likes : Z) (extra : list (string * json))
    : json :=
  JObj ([("kind", JStr "youtube#commentThread");
         ("id", JStr id);
         ("snippet",
          JObj [("topLevelComment",
                 JObj [("snippet", JObj [("likeCount", JNum likes);
                                         ("textDisplay", JStr "text")])])])]
        ++ extra).

Definition sample_replies (n : nat) : list (string * json) :=
  [("replies", JObj [("comments", JList (repeat (JObj []) n))])].

(** Three comment threads, with one reply, none and three. *)
Definition sample_comment_items : list json :=
  [sample_comment "a" 5 (sample_replies 1);
   sample_comment "b" 0 [];
   sample_comment "c" 7 (sample_replies 3)].

Definition sample_comment_response : json :=
  JObj [("nextPageToken", JStr "QURTSl9p"); ("items", JList sample_comment_items)].

Definition sample_comments_table : DataFrame :=
  mkDF [0; 1; 2]%nat
    [("comment_id", [Py (JStr "a"); Py (JStr "b"); Py (JStr "c")]);
     ("like_count", [Py (JNum 5); Py (JNum 0); Py (JNum 7)]);
     ("comment_text", [Py (JStr "text"); Py (JStr "text"); Py (JStr "text")]);
     ("replies.comments",
      [Py (JList [JObj []]); NaN; Py (JList [JObj []; JObj []; JObj []])]);
     ("video_id", [Py (JStr "v1"); Py (JStr "v1"); Py (JStr "v1")])].

(** A client that answers every request with the sample comment threads. *)
Definition sample_client : Client :=
  constant_client (Return sample_comment_response).

(** ** Columns the dtype inference of pandas leaves alone *)

(** A missing value, a string or a list. *)
Definition plain_cell (c : cell) : bool :=
  match c with
  | NaN | Py (JStr _) | Py (JList _) => true
  | _ => false
  end.

(** An integer that fits [int64]. *)
Definition int64_cell (c : cell) : bool :=
  match c with
  | Py (JNum n) => Z.leb (- 2 ^ 63) n && Z.ltb n (2 ^ 63)
  | _ => false
  end.

Definition bool_cell (c : cell) : bool :=
  match c with
  | Py (JBool _) => true
  | _ => false
  end.

(** The cells of a column that pandas keeps as they are: strings and lists,
    with or without missing values (an [object] column), integers only (an
    [int64] column), or booleans only (a [bool] column). *)
Definition kept_by_inference (values : list cell) : bool :=
  forallb plain_cell values || forallb int64_cell values
  || forallb bool_cell values.

(** ** Variants and labels used to state further properties *)

(** The [try] block of [get_top_level_comments] with the expression
    statement of lines 147-150 left out. *)
Definition top_level_comments_try_without_ranking (video_id : string)
    (youtube_client : Client) : outcome (DataFrame * json) :=
  response <- commentThreads_list youtube_client "id,replies,snippet"
                video_id 100%Z "plainText" ;;
  df_comments <- comments_table video_id response ;;
  has_token <- py_in "nextPageToken" response ;;
  next_page_token <-
    (if has_token : bool then getitem response "nextPageToken" else Return JNull) ;;
  Return (df_comments, next_page_token).

Definition get_top_level_comments_without_ranking (video_id : string)
    (youtube_client : Client) : outcome (DataFrame * json) :=
  try_except (top_level_comments_try_without_ranking video_id youtube_client)
    HttpError (fun _ => Return (empty_DataFrame, JNull)).

(** The labels [get_most_popular_videos] selects by name (lines 77-78). *)
Definition video_selected_columns : list string :=
  ["id"; "snippet.publishedAt"; "snippet.channelTitle";
   "snippet.localized.title"; "snippet.localized.description";
   "contentDetails.duration"].

(** The labels the flattened video response has to have: the dropped ones
    and the selected ones. *)
Definition video_required_columns : list string :=
  ["etag"; "kind"; "snippet.channelId"] ++ video_selected_columns.

(** The exception classes the reshaping steps raise. *)
Definition reshaping_error (e : exn) : Prop :=
  In (exn_class e) [KeyError; TypeError; NotImplementedError; ValueError].

(** The flattened video response lacks something [get_most_popular_videos]
    reads: there is no ["items"], or it cannot be flattened, or the flattened
    table lacks a required column. *)
Definition video_data_missing (response : json) : Prop :=
  (exists e, getitem response "items" = Raise e) \/
  exists data,
    getitem response "items" = Return data /\
    ((exists e, json_normalize data = Raise e) \/
     exists df0,
       json_normalize data = Return df0 /\
       exists l, In l video_required_columns /\ ~ In l (columns df0)).

(** A label [get_most_popular_videos] selects: by name, or because it
    contains ["statistics"]. *)
Definition video_selected (l : string) : Prop :=
  In l video_selected_columns \/ str_contains "statistics" l = true.

(** The column labels [json_normalize] gives an array of items. *)
Definition flattened_columns (items : list json) : list string :=
  columns (DataFrame_of_records (map record_of items)).

Definition category_renames : dict string :=
  [("snippet.title", "category_title"); ("snippet.assignable", "assignable")].

(** Integers in descending order. *)
Definition descending (ks : list Z) : Prop :=
  StronglySorted (fun a b => (b <= a)%Z) ks.

(** Two videos, the second without a like count. *)
Definition sample_video_stats (id : string) (stats : list (string * json)) : json :=
  JObj [("kind", JStr "youtube#video");
        ("etag", JStr "9Q0zS8Yl3cM");
        ("id", JStr id);
        ("snippet", JObj [("publishedAt", JStr "2023-03-24T10:00:00Z");
                          ("channelId", JStr "UCBR8-60-B28hp2BmDPdntcQ");
                          ("channelTitle", JStr "channel");
                          ("localized", JObj [("title", JStr id);
                                              ("description", JStr "text")])]);
        ("contentDetails", JObj [("duration", JStr "PT4M13S")]);
        ("statistics", JObj stats)].

Definition sample_mixed_videos : list json :=
  [sample_video_stats "a" [("viewCount", JStr "1000"); ("likeCount", JStr "30")];
   sample_video_stats "b" [("viewCount", JStr "700")]].

Definition sample_mixed_video_response : json :=
  JObj [("items", JList sample_mixed_videos)].

Definition sample_mixed_videos_table : DataFrame :=
  mkDF [0; 1]%nat
    [("id", [Py (JStr "a"); Py (JStr "b")]);
     ("published_at", [Py (JStr "2023-03-24T10:00:00Z");
                       Py (JStr "2023-03-24T10:00:00Z")]);
     ("channel_title", [Py (JStr "channel"); Py (JStr "channel")]);
     ("title", [Py (JStr "a"); Py (JStr "b")]);
     ("description", [Py (JStr "text"); Py (JStr "text")]);
     ("duration", [Py (JStr "PT4M13S"); Py (JStr "PT4M13S")]);
     ("view_count", [Py (JStr "1000"); Py (JStr "700")]);
     ("like_count", [Py (JStr "30"); NaN]);
     ("region_code", [Py (JStr "GB"); Py (JStr "GB")]);
     ("video_category_id", [Py JNull; Py JNull])].

Definition sample_categories : list json :=
  [sample_category "1" "Film & Animation"; sample_category "2" "Autos & Vehicles"].

Definition sample_categories_table : DataFrame :=
  mkDF [0; 1]%nat
    [("id", [Py (JStr "1"); Py (JStr "2")]);
     ("category_title", [Py (JStr "Film & Animation"); Py (JStr "Autos & Vehicles")]);
     ("assignable", [Py (JBool true); Py (JBool true)]);
     ("region_code", [Py (JStr "GB"); Py (JStr "GB")])].

(** * Properties *)

(** ** Labels and dicts *)

Lemma mem_In (k : string) (l : list string) : mem k l = true <-> In k l.
Proof.
  unfold mem. rewrite existsb_exists. split.
  - intros [x [Hx He]]. apply String.eqb_eq in He. now subst.
  - intros H. exists k. split; [assumption | apply String.eqb_refl].
Qed.

Lemma mem_not_In (k : string) (l : list string) : mem k l = false <-> ~ In k l.
Proof.
  rewrite <- mem_In. destruct (mem k l); split; intros; congruence.
Qed.

Section DictFacts.
Context {A : Type}.
Implicit Types (d e : dict A).

Lemma dict_get_In k d v : dict_get k d = Some v -> In (k, v) d.
Proof.
  induction d as [|[k' v'] d IH]; simpl; [discriminate|].
  destruct (String.eqb k k') eqn:E.
  - apply String.eqb_eq in E. intros [= ->]. subst. now left.
  - intros H. right. auto.
Qed.

Lemma dict_get_keys k d : In k (keys d) <-> dict_get k d <> None.
Proof.
  induction d as [|[k' v'] d IH]; simpl.
  - split; [contradiction | congruence].
  - destruct (String.eqb k k') eqn:E.
    + apply String.eqb_eq in E. subst. split; [discriminate | now left].
    + apply String.eqb_neq in E. rewrite <- IH. split.
      * intros [H|H]; [congruence | assumption].
      * now right.
Qed.

Lemma keys_dict_set k v d k' :
  In k' (keys (dict_set k v d)) <-> k' = k \/ In k' (keys d).
Proof.
  induction d as [|[k0 v0] d IH]; simpl.
  - intuition.
  - destruct (String.eqb k k0) eqn:E; simpl.
    + apply String.eqb_eq in E. subst. intuition.
    + rewrite IH. intuition.
Qed.

Lemma keys_dict_update d e k :
  In k (keys (dict_update d e)) <-> In k (keys d) \/ In k (keys e).
Proof.
  unfold dict_update. revert d.
  induction e as [|[k0 v0] e IH]; intros d; simpl.
  - intuition.
  - rewrite IH, keys_dict_set. intuition.
Qed.
End DictFacts.


(** ** Flattening *)

Lemma normalise_json_obj kvs key_string acc :
  normalise_json (JObj kvs) key_string acc =
  fold_left (fun acc kv => normalise_json (snd kv) (new_key key_string (fst kv)) acc)
            kvs acc.
Proof.
  revert acc. induction kvs as [|[k v] kvs IH]; intros acc; [reflexivity|].
  simpl fold_left. rewrite <- IH. reflexivity.
Qed.

Lemma normalise_json_leaf v key_string acc :
  is_dict v = false -> normalise_json v key_string acc = dict_set key_string v acc.
Proof. destruct v; simpl; congruence. Qed.

(** Flattening only adds keys. *)
Lemma normalise_json_keeps j :
  forall key_string acc k,
    In k (keys acc) -> In k (keys (normalise_json j key_string acc)).
Proof.
  induction j using json_ind; intros key_string acc k Hk;
    try (simpl; apply keys_dict_set; now right).
  rewrite normalise_json_obj. revert acc Hk.
  induction H as [|[k0 v0] kvs Hv Hall IH]; intros acc Hk; simpl; auto.
Qed.

Lemma normalise_fold_keeps kvs key_string acc k :
  In k (keys acc) ->
  In k (keys (fold_left
                (fun acc kv => normalise_json (snd kv) (new_key key_string (fst kv)) acc)
                kvs acc)).
Proof.
  revert acc. induction kvs as [|[k0 v0] kvs IH]; intros acc Hk; simpl; auto.
  apply IH. now apply normalise_json_keeps.
Qed.

(** Once the fold reaches a field whose flattening gives a key, the key
    stays. *)
Lemma normalise_fold_reaches kvs key_string acc k x key :
  In (k, x) kvs ->
  (forall acc', In key (keys (normalise_json x (new_key key_string k) acc'))) ->
  In key (keys (fold_left
                  (fun acc kv =>
                     normalise_json (snd kv) (new_key key_string (fst kv)) acc)
                  kvs acc)).
Proof.
  revert acc. induction kvs as [|[k0 v0] kvs IH]; intros acc Hin Hkey;
    simpl in *; [contradiction|].
  destruct Hin as [[= -> ->]|Hin]; [|now apply IH].
  apply normalise_fold_keeps, Hkey.
Qed.

(** A value at a path that is not an object gives the key of the path. *)
Lemma normalise_json_path path :
  forall x key_string acc leaf,
    lookup_path path x = Some leaf -> is_dict leaf = false ->
    In (fold_left new_key path key_string)
       (keys (normalise_json x key_string acc)).
Proof.
  induction path as [|k path IH]; intros x key_string acc leaf Hlookup Hleaf;
    simpl in *.
  - injection Hlookup as ->. rewrite normalise_json_leaf by assumption.
    apply keys_dict_set. now left.
  - destruct x as [| | | | |kvs]; try discriminate.
    destruct (dict_get k kvs) as [x|] eqn:E; [|discriminate].
    apply dict_get_In in E. rewrite normalise_json_obj.
    apply normalise_fold_reaches with (k := k) (x := x); [assumption|].
    intros acc'. now apply IH with (leaf := leaf).
Qed.

Lemma ordered_path kvs path leaf :
  lookup_path path (JObj kvs) = Some leaf -> is_dict leaf = false ->
  In (path_label path) (keys (normalise_json_ordered kvs)).
Proof.
  unfold path_label, normalise_json_ordered.
  destruct path as [|k path]; [simpl; intros [= <-]; discriminate|].
  cbn [lookup_path fold_left].
  destruct (dict_get k kvs) as [x|] eqn:E; [|discriminate].
  apply dict_get_In in E. intros Hlookup Hleaf.
  apply keys_dict_update. destruct (is_dict x) eqn:Ex.
  - right. rewrite normalise_json_obj.
    apply normalise_fold_reaches with (k := k) (x := x).
    + apply filter_In. now split.
    + intros acc'. now apply normalise_json_path with (leaf := leaf).
  - left. destruct path as [|k2 path].
    + unfold keys. apply in_map_iff. exists (k, x). split; [reflexivity|].
      apply filter_In. split; [assumption | simpl; now rewrite Ex].
    + destruct x; discriminate.
Qed.

(** An item with the paths is flattened to a record with their labels. *)
Lemma item_has_paths_record paths item :
  item_has_paths paths item = true ->
  simple_json_normalize item = Some (record_of item) /\
  forall path, In path paths -> In (path_label path) (keys (record_of item)).
Proof.
  unfold item_has_paths. intros H. apply andb_prop in H. destruct H as [Hobj Hall].
  destruct item as [| | | | |kvs]; try discriminate.
  split; [reflexivity|]. intros path Hpath.
  rewrite forallb_forall in Hall. specialize (Hall path Hpath).
  unfold has_path in Hall.
  destruct (lookup_path path (JObj kvs)) as [leaf|] eqn:E; [|discriminate].
  apply negb_true_iff in Hall. unfold record_of. simpl.
  now apply ordered_path with (leaf := leaf).
Qed.

Lemma items_have_paths_records paths items :
  forallb (item_has_paths paths) items = true ->
  all_some (map simple_json_normalize items) = Some (map record_of items).
Proof.
  induction items as [|it items IH]; simpl; [reflexivity|].
  intros H. apply andb_prop in H. destruct H as [Hit Hitems].
  destruct (item_has_paths_record paths it Hit) as [-> _].
  now rewrite IH.
Qed.

Lemma response_has_paths_items paths response items :
  response_has_paths paths response = true ->
  getitem response "items" = Return (JList items) ->
  forallb (item_has_paths paths) items = true.
Proof.
  destruct response as [| | | | |kvs]; simpl; try discriminate.
  destruct (dict_get "items" kvs) as [[| | | |l|]|]; try discriminate.
  now intros H [= <-].
Qed.

(** ** Column labels of a freshly built table *)

Lemma fast_unique_In seen l k :
  In k (fast_unique seen l) <-> In k l /\ ~ In k seen.
Proof.
  revert seen. induction l as [|x l IH]; intros seen; simpl.
  - intuition.
  - destruct (mem x seen) eqn:E.
    + apply mem_In in E. rewrite IH. split.
      * intros [H1 H2]. auto.
      * intros [[->|H1] H2]; [contradiction | auto].
    + apply mem_not_In in E. simpl. rewrite IH. simpl. split.
      * intros [->|[H1 H2]]; [auto | split; [now right | tauto]].
      * intros [[->|H1] H2]; [now left|].
        destruct (string_dec x k) as [->|Hne]; [now left|].
        right. split; [assumption|]. intros [H|H]; contradiction.
Qed.

Lemma fast_unique_NoDup seen l : NoDup (fast_unique seen l).
Proof.
  revert seen. induction l as [|x l IH]; intros seen; simpl; [constructor|].
  destruct (mem x seen); [apply IH|].
  constructor; [|apply IH].
  rewrite fast_unique_In. simpl. tauto.
Qed.

Lemma columns_of_records records :
  columns (DataFrame_of_records records) = fast_unique [] (flat_map keys records).
Proof.
  unfold columns, DataFrame_of_records. simpl. rewrite map_map. simpl.
  apply map_id.
Qed.

Lemma columns_of_records_In records k :
  In k (columns (DataFrame_of_records records)) <->
  exists r, In r records /\ In k (keys r).
Proof.
  rewrite columns_of_records, fast_unique_In, in_flat_map. simpl. tauto.
Qed.

Lemma columns_of_records_NoDup records :
  NoDup (columns (DataFrame_of_records records)).
Proof. rewrite columns_of_records. apply fast_unique_NoDup. Qed.

Lemma well_shaped_of_records records : well_shaped (DataFrame_of_records records).
Proof.
  unfold well_shaped, DataFrame_of_records, nrows. simpl.
  apply Forall_forall. intros c Hc. apply in_map_iff in Hc.
  destruct Hc as [k [<- _]]. simpl. now rewrite length_map, length_seq.
Qed.

Lemma all_some_records items records :
  all_some (map simple_json_normalize items) = Some records ->
  records = map record_of items.
Proof.
  revert records. induction items as [|it items IH]; intros records; simpl.
  - now intros [= <-].
  - unfold record_of at 1.
    destruct (simple_json_normalize it) as [r|]; [|discriminate].
    destruct (all_some (map simple_json_normalize items)) as [rs|]; [|discriminate].
    intros [= <-]. f_equal. now apply IH.
Qed.

(** What [json_normalize] gives on a non-empty array. *)
Lemma json_normalize_list items df :
  json_normalize (JList items) = Return df ->
  items = [] /\ df = empty_DataFrame \/
  items <> [] /\ df = DataFrame_of_records (map record_of items).
Proof.
  destruct items as [|it items]; simpl.
  - intros [= <-]. now left.
  - intros H. right. split; [discriminate|].
    change (match all_some (map simple_json_normalize (it :: items)) with
            | Some records => Return (DataFrame_of_records records)
            | None => OutOfModel
            end = Return df) in H.
    destruct (all_some (map simple_json_normalize (it :: items))) as [rs|] eqn:E;
      [|discriminate].
    injection H as <-. now rewrite (all_some_records _ _ E).
Qed.

Lemma json_normalize_NoDup data df :
  json_normalize data = Return df -> NoDup (columns df).
Proof.
  destruct data as [| | | |items|kvs]; simpl; try discriminate.
  - intros H. apply json_normalize_list in H.
    destruct H as [[_ ->]|[_ ->]]; [constructor | apply columns_of_records_NoDup].
  - intros [= <-]. apply columns_of_records_NoDup.
Qed.

Lemma json_normalize_index items df :
  json_normalize (JList items) = Return df ->
  df_index df = seq 0 (List.length items).
Proof.
  intros H. apply json_normalize_list in H.
  destruct H as [[-> ->]|[_ ->]]; [reflexivity|].
  simpl. now rewrite length_map.
Qed.

Lemma json_normalize_well_shaped items df :
  json_normalize (JList items) = Return df -> well_shaped df.
Proof.
  intros H. apply json_normalize_list in H.
  destruct H as [[_ ->]|[_ ->]]; [constructor | apply well_shaped_of_records].
Qed.

(** ** Outcomes *)

Lemma bind_Return {A B : Type} (m : outcome A) (k : A -> outcome B) b :
  bind m k = Return b -> exists a, m = Return a /\ k a = Return b.
Proof. destruct m; simpl; intros H; try discriminate. eauto. Qed.

Ltac bind_inv H :=
  let a := fresh "x" in
  let Ha := fresh "Hx" in
  apply bind_Return in H; destruct H as [a [Ha H]].

(** ** Table operations *)

Lemma missing_labels_nil labels df :
  missing_labels labels df = [] <-> forall l, In l labels -> In l (columns df).
Proof.
  unfold missing_labels, in_columns. split.
  - intros H l Hl. destruct (mem l (columns df)) eqn:E; [now apply mem_In|].
    assert (Hin : In l (filter (fun l => negb (mem l (columns df))) labels)).
    { apply filter_In. split; [assumption | now rewrite E]. }
    rewrite H in Hin. contradiction.
  - intros H. induction labels as [|l labels IH]; [reflexivity|]. simpl.
    assert (E : mem l (columns df) = true) by (apply mem_In, H; now left).
    rewrite E. simpl. apply IH. intros l' Hl'. apply H. now right.
Qed.

Lemma drop_Return labels df df' :
  drop labels df = Return df' ->
  (forall l, In l labels -> In l (columns df)) /\
  df' = mkDF (df_index df)
             (filter (fun c => negb (mem (fst c) labels)) (df_data df)).
Proof.
  unfold drop. destruct (missing_labels labels df) eqn:E; [|discriminate].
  intros [= <-]. split; [now apply missing_labels_nil | reflexivity].
Qed.

Lemma drop_present labels df :
  (forall l, In l labels -> In l (columns df)) ->
  drop labels df =
  Return (mkDF (df_index df)
               (filter (fun c => negb (mem (fst c) labels)) (df_data df))).
Proof.
  intros H. apply missing_labels_nil in H. unfold drop. now rewrite H.
Qed.

Lemma columns_filter (f : string -> bool) index data :
  columns (mkDF index (filter (fun c => f (fst c)) data)) =
  filter f (map fst data).
Proof.
  unfold columns. simpl. induction data as [|[k v] data IH]; simpl; [reflexivity|].
  destruct (f k); simpl; now rewrite IH.
Qed.

Lemma columns_rename mapper df :
  columns (rename mapper df) = map (rename_label mapper) (columns df).
Proof. unfold columns, rename. simpl. now rewrite !map_map. Qed.

Lemma columns_set_column label values df :
  columns (set_column label values df) =
  if in_columns label df then columns df else columns df ++ [label].
Proof.
  unfold set_column. destruct (in_columns label df); unfold columns; simpl.
  - rewrite map_map. apply map_ext. intros [k v]. simpl.
    destruct (String.eqb k label); reflexivity.
  - now rewrite map_app.
Qed.

Lemma set_column_In label values df :
  In label (columns (set_column label values df)).
Proof.
  rewrite columns_set_column. destruct (in_columns label df) eqn:E.
  - now apply mem_In.
  - apply in_or_app. right. now left.
Qed.

Lemma set_column_values label values df c :
  In c (df_data (set_column label values df)) -> fst c = label ->
  snd c = values.
Proof.
  unfold set_column. destruct (in_columns label df) eqn:E; simpl.
  - intros Hc Hl. apply in_map_iff in Hc. destruct Hc as [[k v] [Hc _]].
    simpl in Hc. destruct (String.eqb k label) eqn:Ek.
    + now subst c.
    + subst c. simpl in Hl. apply String.eqb_neq in Ek. contradiction.
  - intros Hc Hl. apply in_app_or in Hc. destruct Hc as [Hc|[<-|[]]]; [|reflexivity].
    apply mem_not_In in E. exfalso. apply E. unfold columns.
    rewrite <- Hl. now apply in_map.
Qed.

Lemma set_column_index label values df :
  df_index (set_column label values df) = df_index df.
Proof. unfold set_column. now destruct (in_columns label df). Qed.

Lemma set_column_well_shaped label values df :
  well_shaped df -> List.length values = nrows df ->
  well_shaped (set_column label values df).
Proof.
  unfold well_shaped, nrows. rewrite set_column_index. intros Hw Hl.
  unfold set_column. destruct (in_columns label df); simpl.
  - apply Forall_forall. intros c Hc. apply in_map_iff in Hc.
    destruct Hc as [c0 [<- Hc0]].
    destruct (String.eqb (fst c0) label); simpl; [assumption|].
    rewrite Forall_forall in Hw. now apply Hw.
  - apply Forall_app. split; [assumption|]. constructor; [assumption|constructor].
Qed.

Lemma rename_well_shaped mapper df : well_shaped df -> well_shaped (rename mapper df).
Proof.
  unfold well_shaped, rename, nrows. simpl. intros Hw.
  apply Forall_forall. intros c Hc. apply in_map_iff in Hc.
  destruct Hc as [c0 [<- Hc0]]. simpl. rewrite Forall_forall in Hw. now apply Hw.
Qed.

Lemma getitem_list_Return labels df df' :
  getitem_list labels df = Return df' ->
  (forall l, In l labels -> In l (columns df)) /\
  df' = mkDF (df_index df)
             (flat_map (fun l => filter (fun c => String.eqb (fst c) l) (df_data df))
                       labels).
Proof.
  unfold getitem_list. destruct (missing_labels labels df) eqn:E; [|discriminate].
  intros [= <-]. split; [now apply missing_labels_nil | reflexivity].
Qed.

(** The columns of a selection carry the labels asked for, and only those. *)
Lemma selection_labels labels (data : list (string * list cell)) c :
  In c (flat_map (fun l => filter (fun c => String.eqb (fst c) l) data) labels) <->
  In (fst c) labels /\ In c data.
Proof.
  rewrite in_flat_map. split.
  - intros [l [Hl Hc]]. apply filter_In in Hc. destruct Hc as [Hc He].
    apply String.eqb_eq in He. subst l. auto.
  - intros [Hl Hc]. exists (fst c). split; [assumption|].
    apply filter_In. split; [assumption | apply String.eqb_refl].
Qed.

Lemma filter_none {A : Type} (f : A -> bool) (l : list A) :
  (forall x, In x l -> f x = false) -> filter f l = [].
Proof.
  induction l as [|x l IH]; intros H; simpl; [reflexivity|].
  rewrite (H x) by now left. apply IH. intros y Hy. apply H. now right.
Qed.

(** With distinct labels in the table, a label selects exactly one column. *)
Lemma filter_label_unique (data : list (string * list cell)) l :
  NoDup (map fst data) -> In l (map fst data) ->
  exists values, filter (fun c => String.eqb (fst c) l) data = [(l, values)].
Proof.
  induction data as [|[k v] data IH]; simpl; [contradiction|].
  intros Hnd Hin. inversion Hnd as [|? ? Hk Hnd']; subst.
  destruct (String.eqb k l) eqn:E.
  - apply String.eqb_eq in E. subst k. exists v. f_equal.
    apply filter_none. intros [k' v'] Hc. simpl.
    apply String.eqb_neq. intros ->. apply Hk. now apply (in_map fst) in Hc.
  - apply String.eqb_neq in E. destruct Hin as [Hin|Hin]; [contradiction|].
    now apply IH.
Qed.

Lemma selection_columns labels (data : list (string * list cell)) :
  NoDup (map fst data) -> (forall l, In l labels -> In l (map fst data)) ->
  map fst (flat_map (fun l => filter (fun c => String.eqb (fst c) l) data) labels)
  = labels.
Proof.
  intros Hnd. induction labels as [|l labels IH]; intros Hall; simpl; [reflexivity|].
  rewrite map_app, IH by (intros; apply Hall; now right).
  destruct (filter_label_unique data l Hnd) as [v ->]; [apply Hall; now left|].
  reflexivity.
Qed.

(** ** get_video_categories *)

(** A non-empty array of items with the paths is flattened to a table with
    one row per item and a column for each path. *)
Lemma json_normalize_has_paths paths items :
  items <> [] ->
  forallb (item_has_paths paths) items = true ->
  json_normalize (JList items) = Return (DataFrame_of_records (map record_of items)) /\
  forall path, In path paths ->
               In (path_label path)
                  (columns (DataFrame_of_records (map record_of items))).
Proof.
  intros Hne Hall. destruct items as [|it items]; [congruence|]. split.
  - unfold json_normalize.
    now rewrite (items_have_paths_records paths (it :: items) Hall).
  - intros path Hpath. apply columns_of_records_In. exists (record_of it).
    split; [now left|].
    simpl in Hall. apply andb_prop in Hall. destruct Hall as [Hit _].
    now apply (item_has_paths_record paths it Hit).
Qed.

Lemma rename_label_category c :
  In (rename_label [("snippet.title", "category_title");
                    ("snippet.assignable", "assignable")] c)
     ["kind"; "etag"; "snippet.channelId"] ->
  rename_label [("snippet.title", "category_title");
                ("snippet.assignable", "assignable")] c = c.
Proof.
  unfold rename_label. simpl.
  destruct (String.eqb c "snippet.title"); [simpl; intuition discriminate|].
  destruct (String.eqb c "snippet.assignable"); [simpl; intuition discriminate|].
  reflexivity.
Qed.

(** C5, as amended: for a category response with N >= 1 items, each an
    object with [kind], [etag] and [snippet.channelId], [get_video_categories]
    returns a table of exactly N rows (every column has N cells), whose
    [region_code] column holds the input region code in every row, and which
    has no column [kind], [etag] or [snippet.channelId]. *)
Theorem C5_categories_table region_code youtube response items :
  videoCategories_list youtube "snippet" region_code true = Return response ->
  category_response_ok response = true ->
  getitem response "items" = Return (JList items) ->
  items <> [] ->
  exists df,
    get_video_categories region_code youtube = Return df /\
    nrows df = List.length items /\
    well_shaped df /\
    In "region_code" (columns df) /\
    (forall c, In c (df_data df) -> fst c = "region_code" ->
               snd c = repeat (Py (JStr region_code)) (List.length items)) /\
    ~ In "kind" (columns df) /\
    ~ In "etag" (columns df) /\
    ~ In "snippet.channelId" (columns df).
Proof.
  intros Hcall Hok Hitems Hne.
  pose proof (response_has_paths_items _ _ _ Hok Hitems) as Hall.
  unfold get_video_categories. rewrite Hcall. cbn [bind]. rewrite Hitems. cbn [bind].
  set (its := items) in *.
  set (df0 := DataFrame_of_records (map record_of its)).
  destruct (json_normalize_has_paths category_paths its Hne Hall) as [Hnorm Hpaths].
  fold df0 in Hnorm, Hpaths.
  rewrite Hnorm. cbn [bind].
  assert (Hlabels : forall l, In l ["kind"; "etag"; "snippet.channelId"] ->
                              In l (columns df0)).
  { intros l Hl. simpl in Hl.
    destruct Hl as [<-|[<-|[<-|[]]]];
      [apply (Hpaths ["kind"]) | apply (Hpaths ["etag"])
       | apply (Hpaths ["snippet"; "channelId"])]; simpl; auto. }
  rewrite (drop_present _ _ Hlabels). cbn [bind].
  set (dropped := mkDF (df_index df0) _).
  set (renamed := rename _ dropped).
  assert (Hrows : nrows renamed = List.length its).
  { unfold renamed, rename, nrows, dropped, df0. simpl.
    now rewrite length_seq, length_map. }
  assert (Hshape : well_shaped renamed).
  { apply rename_well_shaped. unfold well_shaped, dropped, nrows. simpl.
    apply Forall_forall. intros c Hc. apply filter_In in Hc. destruct Hc as [Hc _].
    pose proof (well_shaped_of_records (map record_of its)) as Hw.
    unfold well_shaped, nrows in Hw. rewrite Forall_forall in Hw. now apply Hw. }
  assert (Hgone : forall l, In l ["kind"; "etag"; "snippet.channelId"] ->
                            ~ In l (columns (setitem "region_code"
                                               (Py (JStr region_code)) renamed))).
  { intros l Hl Hin. unfold setitem in Hin. rewrite columns_set_column in Hin.
    assert (Hren : In l (columns renamed)).
    { destruct (in_columns "region_code" renamed); [assumption|].
      apply in_app_or in Hin. destruct Hin as [Hin|[<-|[]]]; [assumption|].
      simpl in Hl. intuition discriminate. }
    unfold renamed in Hren. rewrite columns_rename in Hren.
    apply in_map_iff in Hren. destruct Hren as [c [Hc Hin']].
    assert (c = l) by (rewrite <- Hc; symmetry; apply rename_label_category;
                       now rewrite Hc).
    subst c. unfold dropped in Hin'.
    rewrite (columns_filter (fun k => negb (mem k ["kind"; "etag"; "snippet.channelId"])))
      in Hin'.
    apply filter_In in Hin'. destruct Hin' as [_ Hneg].
    apply negb_true_iff, mem_not_In in Hneg. contradiction. }
  eexists. split; [reflexivity|]. unfold setitem. repeat split.
  - unfold nrows. now rewrite set_column_index.
  - apply set_column_well_shaped; [assumption | apply repeat_length].
  - apply set_column_In.
  - intros c Hc Hl. rewrite (set_column_values _ _ _ _ Hc Hl). now rewrite Hrows.
  - apply Hgone. simpl. auto.
  - apply Hgone. simpl. auto.
  - apply Hgone. simpl. auto.
Qed.

(** ** get_most_popular_videos *)

Lemma filter_filter_implied {A : Type} (f g : A -> bool) (l : list A) :
  (forall x, f x = true -> g x = true) -> filter f (filter g l) = filter f l.
Proof.
  intros H. induction l as [|x l IH]; simpl; [reflexivity|].
  destruct (g x) eqn:Eg; simpl.
  - destruct (f x); now rewrite IH.
  - destruct (f x) eqn:Ef; [|assumption]. apply H in Ef. congruence.
Qed.

(** A label that is no target of the mapper is only reached from itself. *)
Lemma rename_label_target mapper c t :
  ~ In t (map snd mapper) -> rename_label mapper c = t -> c = t.
Proof.
  unfold rename_label. intros Ht.
  destruct (dict_get c mapper) as [v|] eqn:E; [|auto].
  intros ->. exfalso. apply Ht. apply dict_get_In in E.
  now apply (in_map snd) in E.
Qed.

Lemma statistics_not_dropped c :
  str_contains "statistics" c = true ->
  negb (mem c ["etag"; "kind"; "snippet.channelId"]) = true.
Proof.
  intros H. apply negb_true_iff, mem_not_In. simpl.
  intros [<-|[<-|[<-|[]]]]; vm_compute in H; discriminate.
Qed.


(** The columns of the table the [try] block builds. *)
Lemma popular_videos_try_columns region_code youtube video_category_id
    max_results response data df0 df :
  videos_list youtube "snippet, statistics,contentDetails, topicDetails"
    "mostPopular" region_code max_results video_category_id = Return response ->
  getitem response "items" = Return data ->
  json_normalize data = Return df0 ->
  popular_videos_try region_code youtube video_category_id max_results = Return df ->
  columns df =
    video_fixed_columns
    ++ map (rename_label video_renames)
           (filter (str_contains "statistics") (columns df0))
    ++ ["region_code"; "video_category_id"].
Proof.
  intros Hcall Hitems Hnorm Htry.
  unfold popular_videos_try in Htry.
  rewrite Hcall in Htry. cbn [bind] in Htry.
  rewrite Hitems in Htry. cbn [bind] in Htry.
  rewrite Hnorm in Htry. cbn [bind] in Htry.
  bind_inv Htry. rename x into dropped. bind_inv Htry. rename x into selected.
  injection Htry as <-.
  apply drop_Return in Hx. destruct Hx as [_ ->].
  apply getitem_list_Return in Hx0. destruct Hx0 as [Hpresent ->].
  cbn [df_index df_data] in *.
  change (filter (str_contains "statistics") (columns df0))
    with (filter (fun col => str_contains "statistics" col) (columns df0)).
  set (stats := filter (fun col => str_contains "statistics" col) (columns df0)).
  set (dropped_data :=
         filter (fun c => negb (mem (fst c) ["etag"; "kind"; "snippet.channelId"]))
                (df_data df0)) in *.
  assert (Hcols : columns (mkDF (df_index df0) dropped_data) =
                  filter (fun k => negb (mem k ["etag"; "kind"; "snippet.channelId"]))
                         (columns df0)).
  { apply (columns_filter
             (fun k => negb (mem k ["etag"; "kind"; "snippet.channelId"]))). }
  rewrite Hcols in Hpresent |- *.
  rewrite (filter_filter_implied (fun col => str_contains "statistics" col) _ _
             statistics_not_dropped) in Hpresent |- *.
  fold stats in Hpresent |- *.
  assert (Hnd : NoDup (map fst dropped_data)).
  { change (map fst dropped_data) with (columns (mkDF (df_index df0) dropped_data)).
    rewrite Hcols. apply NoDup_filter. now apply json_normalize_NoDup with (data := data). }
  assert (Hin : forall l, In l (["id"; "snippet.publishedAt"; "snippet.channelTitle";
                                 "snippet.localized.title";
                                 "snippet.localized.description";
                                 "contentDetails.duration"] ++ stats) ->
                          In l (map fst dropped_data)).
  { intros l Hl.
    change (map fst dropped_data) with (columns (mkDF (df_index df0) dropped_data)).
    rewrite Hcols. now apply Hpresent. }
  set (labels := _ ++ stats) in *.
  set (selected := mkDF (df_index df0) _).
  assert (Hsel : columns (rename video_renames selected) =
                 video_fixed_columns ++ map (rename_label video_renames) stats).
  { rewrite columns_rename. unfold selected, columns. cbn [df_data].
    rewrite (selection_columns labels dropped_data Hnd Hin).
    unfold labels. rewrite map_app. reflexivity. }
  assert (Hstat : forall t, str_contains "statistics" t = false ->
                            ~ In t (map snd video_renames) ->
                            ~ In t video_fixed_columns ->
                            ~ In t (columns (rename video_renames selected))).
  { intros t Ht Htarget Hfixed Hin'. rewrite Hsel in Hin'.
    apply in_app_or in Hin'. destruct Hin' as [Hin'|Hin']; [contradiction|].
    apply in_map_iff in Hin'. destruct Hin' as [c [Hc Hcin]].
    apply rename_label_target in Hc; [|assumption]. subst c.
    unfold stats in Hcin. apply filter_In in Hcin. destruct Hcin as [_ Hcin].
    congruence. }
  assert (Hregion : in_columns "region_code" (rename video_renames selected) = false).
  { apply mem_not_In. apply Hstat; [reflexivity | |];
      simpl; intuition discriminate. }
  unfold setitem at 2. 
  set (stamped := set_column "region_code" _ (rename video_renames selected)).
  assert (Hstamped : columns stamped =
                     columns (rename video_renames selected) ++ ["region_code"]).
  { unfold stamped. rewrite columns_set_column. now rewrite Hregion. }
  assert (Hcategory : in_columns "video_category_id" stamped = false).
  { apply mem_not_In. rewrite Hstamped. intros Hin'.
    apply in_app_or in Hin'. destruct Hin' as [Hin'|[Hin'|[]]]; [|discriminate].
    revert Hin'. apply Hstat; [reflexivity | |]; simpl; intuition discriminate. }
  unfold setitem. rewrite columns_set_column, Hcategory, Hstamped, Hsel.
  now rewrite <- !app_assoc.
Qed.

(** C4: when the [try] block of [get_most_popular_videos] completes, the
    function returns its table, whose columns are exactly the six fixed ones,
    then every column of the flattened response whose label contains
    ["statistics"] (renamed), then [region_code] and [video_category_id]; if
    ["statistics.viewCount"] is the only such column there is no
    [like_count] column. *)
Theorem C4_popular_videos_columns region_code youtube video_category_id
    max_results verbose response data df0 df :
  videos_list youtube "snippet, statistics,contentDetails, topicDetails"
    "mostPopular" region_code max_results video_category_id = Return response ->
  getitem response "items" = Return data ->
  json_normalize data = Return df0 ->
  popular_videos_try region_code youtube video_category_id max_results = Return df ->
  get_most_popular_videos region_code youtube video_category_id max_results verbose
    = ([], Return df) /\
  columns df =
    ["id"; "published_at"; "channel_title"; "title"; "description"; "duration"]
    ++ map (rename_label video_renames)
           (filter (str_contains "statistics") (columns df0))
    ++ ["region_code"; "video_category_id"] /\
  (filter (str_contains "statistics") (columns df0) = ["statistics.viewCount"] ->
   columns df =
     ["id"; "published_at"; "channel_title"; "title"; "description"; "duration";
      "view_count"; "region_code"; "video_category_id"] /\
   ~ In "like_count" (columns df)).
Proof.
  intros Hcall Hitems Hnorm Htry.
  pose proof (popular_videos_try_columns _ _ _ _ _ _ _ _ Hcall Hitems Hnorm Htry)
    as Hcols.
  split; [|split].
  - unfold get_most_popular_videos. now rewrite Htry.
  - exact Hcols.
  - intros Hview. rewrite Hcols, Hview. split; [reflexivity|].
    simpl. intuition discriminate.
Qed.


(** No call of [get_most_popular_videos] raises an instance of
    [Exception]. *)
Lemma popular_videos_never_raises_Exception region_code youtube
    video_category_id max_results verbose e :
  snd (get_most_popular_videos region_code youtube video_category_id
         max_results verbose) = Raise e ->
  isinstance e Exception = false.
Proof.
  unfold get_most_popular_videos, try_except_printing.
  destruct (popular_videos_try _ _ _ _) as [df|e0|]; simpl; try discriminate.
  destruct (isinstance e0 Exception) eqn:E; simpl; [discriminate|].
  now intros [= <-].
Qed.

(** [KeyboardInterrupt] derives from [BaseException] only: the clause
    [except Exception] lets it through. *)
Lemma popular_videos_KeyboardInterrupt :
  snd (get_most_popular_videos "GB"
         (constant_client (Raise (mkExn KeyboardInterrupt ""))) None 50 false)
  = Raise (mkExn KeyboardInterrupt "").
Proof. reflexivity. Qed.

(** Every class of the hierarchy but the three that do not derive from
    [Exception] is caught by [except Exception]; [except HttpError] catches
    [HttpError] and the two classes derived from it. *)
Lemma issubclass_Exception c :
  issubclass c Exception = true <->
  c <> BaseException /\ c <> KeyboardInterrupt /\ c <> SystemExit.
Proof.
  destruct c; vm_compute; split; intros H; try discriminate; try reflexivity;
    try (repeat split; discriminate); destruct H as [H1 [H2 H3]]; congruence.
Qed.

Lemma issubclass_HttpError c :
  issubclass c HttpError = true <->
  c = HttpError \/ c = BatchError \/ c = ResumableUploadError.
Proof.
  destruct c; vm_compute; split; intros H; try discriminate; auto;
    destruct H as [H|[H|H]]; discriminate.
Qed.

(** ** get_top_level_comments *)

Lemma selected_cols_In df_comments l :
  In l (selected_cols df_comments) <->
  In l ["comment_id"; "like_count"; "comment_text"] \/
  (l = "replies.comments" /\ in_columns "replies.comments" df_comments = true).
Proof.
  unfold selected_cols.
  destruct (in_columns "replies.comments" df_comments); simpl;
    intuition (try discriminate; auto).
Qed.

Lemma selected_cols_not_video_id df_comments :
  ~ In "video_id" (selected_cols df_comments).
Proof. rewrite selected_cols_In. simpl. intuition discriminate. Qed.

(** The table of line 145, spelled out. *)
Lemma comments_table_Return video_id response df :
  comments_table video_id response = Return df ->
  exists data df0,
    getitem response "items" = Return data /\
    json_normalize data = Return df0 /\
    (forall l, In l (selected_cols (rename comment_renames df0)) ->
               In l (columns (rename comment_renames df0))) /\
    df = mkDF (df_index df0)
           (flat_map (fun l => filter (fun c => String.eqb (fst c) l)
                                      (df_data (rename comment_renames df0)))
                     (selected_cols (rename comment_renames df0))
            ++ [("video_id", repeat (Py (JStr video_id)) (nrows df0))]).
Proof.
  unfold comments_table. intros H.
  bind_inv H. rename x into data. bind_inv H. rename x into df0.
  bind_inv H. rename x into selected. injection H as <-.
  apply getitem_list_Return in Hx1. destruct Hx1 as [Hpresent ->].
  exists data, df0. repeat split; try assumption.
  unfold assign, setitem, set_column.
  set (sel := mkDF _ _).
  assert (E : in_columns "video_id" sel = false).
  { apply mem_not_In. unfold sel, columns. cbn [df_data]. intros Hin.
    apply in_map_iff in Hin. destruct Hin as [c [Hc Hin]].
    apply selection_labels in Hin. destruct Hin as [Hin _].
    rewrite Hc in Hin. now apply selected_cols_not_video_id in Hin. }
  rewrite E. reflexivity.
Qed.

(** What a completed [try] block of [get_top_level_comments] has done. *)
Lemma top_level_comments_try_Return video_id youtube_client df token :
  top_level_comments_try video_id youtube_client = Return (df, token) ->
  exists response,
    commentThreads_list youtube_client "id,replies,snippet" video_id 100%Z
      "plainText" = Return response /\
    comments_table video_id response = Return df /\
    (in_columns "replies.comments" df = true ->
     exists ranked, replies_ranking df = Return ranked) /\
    exists has_token,
      py_in "nextPageToken" response = Return has_token /\
      (if has_token then getitem response "nextPageToken" else Return JNull)
      = Return token.
Proof.
  unfold top_level_comments_try. intros H.
  bind_inv H. rename x into response. bind_inv H. rename x into df'.
  bind_inv H. bind_inv H. rename x0 into has_token. bind_inv H.
  injection H as <- <-.
  exists response. repeat split; try assumption.
  - intros E. rewrite E in Hx1. bind_inv Hx1. eauto.
  - exists has_token. split; assumption.
Qed.

Lemma get_top_level_comments_of_try video_id youtube_client r :
  top_level_comments_try video_id youtube_client = Return r ->
  get_top_level_comments video_id youtube_client = Return r.
Proof. unfold get_top_level_comments, try_except. now intros ->. Qed.

(** C3: when the [try] block of [get_top_level_comments] raises, an
    [HttpError] gives the empty table and no continuation token, and an
    exception of any other class is raised to the caller. *)
Theorem C3_comments_catch_HttpError video_id youtube_client e :
  top_level_comments_try video_id youtube_client = Raise e ->
  (isinstance e HttpError = true ->
   get_top_level_comments video_id youtube_client
   = Return (empty_DataFrame, JNull)) /\
  (isinstance e HttpError = false ->
   get_top_level_comments video_id youtube_client = Raise e).
Proof.
  intros Htry. unfold get_top_level_comments, try_except. rewrite Htry.
  split; intros ->; reflexivity.
Qed.

Lemma getitem_Return_dict v key x :
  getitem v key = Return x -> exists kvs, v = JObj kvs /\ dict_get key kvs = Some x.
Proof.
  destruct v as [| | | | |kvs]; simpl; try discriminate.
  destruct (dict_get key kvs) as [y|] eqn:E; [|discriminate].
  intros [= <-]. eauto.
Qed.

(** C6: after a completed [try] block the response is a mapping; the token
    returned is the value of its ["nextPageToken"] field when it has one, and
    [None] when it has none. *)
Theorem C6_next_page_token video_id youtube_client df token :
  top_level_comments_try video_id youtube_client = Return (df, token) ->
  exists kvs,
    commentThreads_list youtube_client "id,replies,snippet" video_id 100%Z
      "plainText" = Return (JObj kvs) /\
    get_top_level_comments video_id youtube_client = Return (df, token) /\
    (forall v, dict_get "nextPageToken" kvs = Some v -> token = v) /\
    (dict_get "nextPageToken" kvs = None -> token = JNull).
Proof.
  intros Htry. pose proof (get_top_level_comments_of_try _ _ _ Htry) as Hget.
  apply top_level_comments_try_Return in Htry.
  destruct Htry as [response [Hcall [Htable [_ [has_token [Hin Htoken]]]]]].
  apply comments_table_Return in Htable.
  destruct Htable as [data [df0 [Hitems _]]].
  apply getitem_Return_dict in Hitems. destruct Hitems as [kvs [-> _]].
  exists kvs. split; [assumption|]. split; [assumption|].
  simpl in Hin. injection Hin as <-.
  destruct (mem "nextPageToken" (keys kvs)) eqn:E.
  - apply getitem_Return_dict in Htoken.
    destruct Htoken as [kvs' [[= <-] Hget']]. split; congruence.
  - injection Htoken as <-. split; [|reflexivity].
    intros v Hv. apply mem_not_In in E. exfalso. apply E.
    apply dict_get_keys. congruence.
Qed.

(** C8: after a completed [try] block the returned table has a [video_id]
    column, and every column with that label holds the input [video_id] in
    each of the table's rows. *)
Theorem C8_video_id_stamped video_id youtube_client df token :
  top_level_comments_try video_id youtube_client = Return (df, token) ->
  get_top_level_comments video_id youtube_client = Return (df, token) /\
  In "video_id" (columns df) /\
  (forall c, In c (df_data df) -> fst c = "video_id" ->
             snd c = repeat (Py (JStr video_id)) (nrows df)).
Proof.
  intros Htry. split; [now apply get_top_level_comments_of_try|].
  apply top_level_comments_try_Return in Htry.
  destruct Htry as [response [_ [Htable _]]].
  apply comments_table_Return in Htable.
  destruct Htable as [data [df0 [_ [_ [_ ->]]]]].
  unfold columns, nrows. cbn [df_data df_index]. split.
  - rewrite map_app. apply in_or_app. right. now left.
  - intros c Hc Hlabel. apply in_app_or in Hc. destruct Hc as [Hc|[<-|[]]].
    + apply selection_labels in Hc. destruct Hc as [Hc _]. rewrite Hlabel in Hc.
      now apply selected_cols_not_video_id in Hc.
    + reflexivity.
Qed.

Lemma replies_column_renamed df0 :
  in_columns "replies.comments" (rename comment_renames df0) = true <->
  In "replies.comments" (columns df0).
Proof.
  unfold in_columns. rewrite mem_In, columns_rename, in_map_iff. split.
  - intros [c [Hc Hin]]. apply rename_label_target in Hc; [now subst|].
    simpl. intuition discriminate.
  - intros Hin. exists "replies.comments". split; [reflexivity | assumption].
Qed.

(** The column labels of the table of line 145. *)
Lemma comments_table_columns video_id response data df0 df :
  getitem response "items" = Return data ->
  json_normalize data = Return df0 ->
  comments_table video_id response = Return df ->
  forall c, In c (columns df) <->
            In c ["comment_id"; "like_count"; "comment_text"; "video_id"] \/
            (c = "replies.comments" /\ In "replies.comments" (columns df0)).
Proof.
  intros Hitems Hnorm Htable c. apply comments_table_Return in Htable.
  destruct Htable as [data' [df0' [Hitems' [Hnorm' [Hpresent ->]]]]].
  rewrite Hitems in Hitems'. injection Hitems' as <-.
  rewrite Hnorm in Hnorm'. injection Hnorm' as <-.
  unfold columns at 1. cbn [df_data]. rewrite map_app, in_app_iff.
  rewrite <- replies_column_renamed.
  assert (Hsel : In c (map fst
                         (flat_map
                            (fun l => filter (fun c0 => String.eqb (fst c0) l)
                                        (df_data (rename comment_renames df0)))
                            (selected_cols (rename comment_renames df0)))) <->
                 In c (selected_cols (rename comment_renames df0))).
  { rewrite in_map_iff. split.
    - intros [col [<- Hcol]]. now apply selection_labels in Hcol.
    - intros Hc. pose proof (Hpresent c Hc) as Hin. unfold columns in Hin.
      apply in_map_iff in Hin. destruct Hin as [col [<- Hcol]].
      exists col. split; [reflexivity|]. now apply selection_labels. }
  rewrite Hsel, selected_cols_In. simpl. intuition.
Qed.

(** C10: a table [get_top_level_comments] returns never has a
    [number_replies] column; after a completed [try] block its column labels
    are exactly [comment_id], [like_count], [comment_text] and [video_id],
    plus [replies.comments] when the flattened response has that column. *)
Theorem C10_no_number_replies_column video_id youtube_client df token :
  (get_top_level_comments video_id youtube_client = Return (df, token) ->
   ~ In "number_replies" (columns df)) /\
  (forall response data df0,
     commentThreads_list youtube_client "id,replies,snippet" video_id 100%Z
       "plainText" = Return response ->
     getitem response "items" = Return data ->
     json_normalize data = Return df0 ->
     top_level_comments_try video_id youtube_client = Return (df, token) ->
     forall c, In c (columns df) <->
               In c ["comment_id"; "like_count"; "comment_text"; "video_id"] \/
               (c = "replies.comments" /\ In "replies.comments" (columns df0))).
Proof.
  split.
  - unfold get_top_level_comments, try_except.
    destruct (top_level_comments_try video_id youtube_client) as [r|e|] eqn:Htry;
      try discriminate.
    + intros [= ->]. apply top_level_comments_try_Return in Htry.
      destruct Htry as [response [_ [Htable _]]].
      pose proof Htable as Htable'. apply comments_table_Return in Htable'.
      destruct Htable' as [data [df0 [Hitems [Hnorm _]]]].
      rewrite (comments_table_columns _ _ _ _ _ Hitems Hnorm Htable).
      simpl. intuition discriminate.
    + destruct (isinstance e HttpError); [|discriminate].
      intros [= <- <-]. simpl. auto.
  - intros response data df0 Hcall Hitems Hnorm Htry.
    apply top_level_comments_try_Return in Htry.
    destruct Htry as [response' [Hcall' [Htable _]]].
    rewrite Hcall in Hcall'. injection Hcall' as <-.
    now apply comments_table_columns with (video_id := video_id) (response := response)
                                          (data := data).
Qed.


(** The table of line 145 in terms of the items: the row labels count the
    items, and every column lists, item by item, the value of one key of the
    flattened items (or the stamped [video_id]). *)
Lemma comments_table_of_items video_id response items df :
  getitem response "items" = Return (JList items) ->
  comments_table video_id response = Return df ->
  df_index df = seq 0 (List.length items) /\
  Forall (fun c =>
            c = ("video_id", repeat (Py (JStr video_id)) (List.length items)) \/
            exists k, fst c = rename_label comment_renames k /\
                      snd c = map (item_cell k) items)
         (df_data df).
Proof.
  intros Hitems Htable. apply comments_table_Return in Htable.
  destruct Htable as [data [df0 [Hitems' [Hnorm [Hpresent ->]]]]].
  rewrite Hitems in Hitems'. injection Hitems' as <-.
  pose proof (json_normalize_index _ _ Hnorm) as Hindex.
  cbn [df_index df_data]. split; [assumption|].
  apply Forall_app. split.
  - apply Forall_forall. intros c Hc. right.
    apply selection_labels in Hc. destruct Hc as [_ Hc].
    unfold rename in Hc. cbn [df_data] in Hc. apply in_map_iff in Hc.
    destruct Hc as [[k values] [<- Hc]]. exists k. split; [reflexivity|].
    apply json_normalize_list in Hnorm. destruct Hnorm as [[_ ->]|[_ ->]];
      [contradiction|].
    unfold DataFrame_of_records in Hc. cbn [df_data] in Hc.
    apply in_map_iff in Hc. destruct Hc as [k' [[= -> <-] _]].
    cbn [snd]. now rewrite map_map.
  - constructor; [|constructor]. left. unfold nrows. rewrite Hindex.
    now rewrite length_seq.
Qed.


Lemma set_column_keeps label values df l :
  In l (columns df) -> In l (columns (set_column label values df)).
Proof.
  intros H. rewrite columns_set_column.
  destruct (in_columns label df); [assumption | apply in_or_app; now left].
Qed.

Lemma popular_videos_try_stamped region_code youtube video_category_id
    max_results df :
  popular_videos_try region_code youtube video_category_id max_results = Return df ->
  In "region_code" (columns df) /\ In "video_category_id" (columns df).
Proof.
  unfold popular_videos_try. intros H.
  bind_inv H. bind_inv H. bind_inv H. bind_inv H. bind_inv H.
  injection H as <-. unfold setitem. split.
  - apply set_column_keeps, set_column_In.
  - apply set_column_In.
Qed.

Lemma comments_try_video_id video_id youtube_client df token :
  top_level_comments_try video_id youtube_client = Return (df, token) ->
  In "video_id" (columns df).
Proof.
  intros Htry. apply top_level_comments_try_Return in Htry.
  destruct Htry as [response [_ [Htable _]]].
  apply comments_table_Return in Htable.
  destruct Htable as [data [df0 [_ [_ [_ ->]]]]].
  unfold columns. cbn [df_data]. rewrite map_app. apply in_or_app. right. now left.
Qed.

(** C9: on the error path both functions return [pd.DataFrame()], a table
    with no column and no row ([get_most_popular_videos] when its [try]
    block raises an instance of [Exception], [get_top_level_comments] when
    its [try] block raises an [HttpError]); on the success path the table has
    the stamped columns ([region_code] and [video_category_id], [video_id]),
    so the two paths differ in their columns. *)
Theorem C9_error_path_has_no_columns :
  (forall region_code youtube video_category_id max_results verbose e,
     popular_videos_try region_code youtube video_category_id max_results
     = Raise e ->
     isinstance e Exception = true ->
     exists df,
       snd (get_most_popular_videos region_code youtube video_category_id
              max_results verbose) = Return df /\
       columns df = [] /\ nrows df = 0%nat) /\
  (forall video_id youtube_client e,
     top_level_comments_try video_id youtube_client = Raise e ->
     isinstance e HttpError = true ->
     exists df,
       get_top_level_comments video_id youtube_client = Return (df, JNull) /\
       columns df = [] /\ nrows df = 0%nat) /\
  (forall region_code youtube video_category_id max_results verbose df,
     popular_videos_try region_code youtube video_category_id max_results
     = Return df ->
     snd (get_most_popular_videos region_code youtube video_category_id
            max_results verbose) = Return df /\
     In "region_code" (columns df) /\ In "video_category_id" (columns df) /\
     columns df <> columns empty_DataFrame) /\
  (forall video_id youtube_client df token,
     top_level_comments_try video_id youtube_client = Return (df, token) ->
     get_top_level_comments video_id youtube_client = Return (df, token) /\
     In "video_id" (columns df) /\
     columns df <> columns empty_DataFrame).
Proof.
  split; [|split; [|split]].
  - intros region_code youtube video_category_id max_results verbose e Htry Hexc.
    exists empty_DataFrame.
    unfold get_most_popular_videos, try_except_printing. rewrite Htry, Hexc.
    repeat split.
  - intros video_id youtube_client e Htry Hexc. exists empty_DataFrame.
    unfold get_top_level_comments, try_except. rewrite Htry, Hexc.
    repeat split.
  - intros region_code youtube video_category_id max_results verbose df Htry.
    split.
    { unfold get_most_popular_videos, try_except_printing. now rewrite Htry. }
    apply popular_videos_try_stamped in Htry. destruct Htry as [Hr Hc].
    repeat split; try assumption.
    intros E. rewrite E in Hr. contradiction.
  - intros video_id youtube_client df token Htry.
    split; [now apply get_top_level_comments_of_try|].
    apply comments_try_video_id in Htry. split; [assumption|].
    intros E. rewrite E in Htry. contradiction.
Qed.

(** ** Sorting *)

Lemma insert_desc_perm x l : Permutation (insert_desc x l) (x :: l).
Proof.
  induction l as [|y l IH]; simpl; [reflexivity|].
  destruct (Z.ltb (fst x) (fst y)); [|reflexivity].
  rewrite IH. apply perm_swap.
Qed.

Lemma insertion_sort_perm l : Permutation (fold_right insert_desc [] l) l.
Proof.
  induction l as [|x l IH]; simpl; [reflexivity|].
  rewrite insert_desc_perm. now constructor.
Qed.

Lemma positions_of_combine {A : Type} (ks : list A) start :
  map snd (combine ks (seq start (List.length ks))) = seq start (List.length ks).
Proof.
  revert start. induction ks as [|k ks IH]; intros start; simpl; [reflexivity|].
  now rewrite IH.
Qed.

(** The positions [argsort_desc] gives are the positions of the list, each
    once. *)
Lemma argsort_desc_perm ks :
  Permutation (argsort_desc ks) (seq 0 (List.length ks)).
Proof.
  unfold argsort_desc. rewrite insertion_sort_perm.
  now rewrite positions_of_combine.
Qed.

Lemma take_seq positions n :
  (forall p, In p positions -> p < n) ->
  take 0%nat positions (seq 0 n) = positions.
Proof.
  unfold take. induction positions as [|p positions IH]; intros H; simpl;
    [reflexivity|].
  rewrite seq_nth by (apply H; now left). simpl.
  f_equal. apply IH. intros q Hq. apply H. now right.
Qed.

Lemma position_of_In row index :
  In row index ->
  exists p, position_of row index = Some p /\ nth_error index p = Some row.
Proof.
  induction index as [|r index IH]; simpl; [contradiction|].
  destruct (Nat.eqb row r) eqn:E.
  - apply Nat.eqb_eq in E. subst. intros _. exists 0%nat. now split.
  - apply Nat.eqb_neq in E. intros [H|H]; [congruence|].
    destruct (IH H) as [p [Hp Hn]]. exists (S p). rewrite Hp. now split.
Qed.

Lemma dict_get_map_values {A B : Type} (g : A -> B) k (d : dict A) :
  dict_get k (map (fun c => (fst c, g (snd c))) d) = option_map g (dict_get k d).
Proof.
  induction d as [|[k' v] d IH]; simpl; [reflexivity|].
  destruct (String.eqb k k'); [reflexivity | assumption].
Qed.

Lemma int_cells_of_apply (f : cell -> Z) series :
  all_some (map int_of_cell (apply (fun y => JNum (f y)) series))
  = Some (map f series).
Proof.
  unfold apply. induction series as [|y series IH]; simpl; [reflexivity|].
  now rewrite IH.
Qed.

Lemma filter_singleton {A : Type} (f : A -> bool) (l : list A) c :
  filter f l = [c] -> In c l /\ f c = true.
Proof.
  intros H. apply filter_In. rewrite H. now left.
Qed.

Lemma getitem_column_Return label df series :
  getitem_column label df = Return series ->
  In (label, series) (df_data df).
Proof.
  unfold getitem_column.
  destruct (filter _ (df_data df)) as [|c [|c' rest]] eqn:E; try discriminate.
  intros [= <-]. apply filter_singleton in E. destruct E as [Hin He].
  apply String.eqb_eq in He. rewrite <- He. now destruct c.
Qed.

Lemma sort_values_desc_Return by_ df ranked :
  sort_values_desc by_ df = Return ranked ->
  exists values ks,
    In (by_, values) (df_data df) /\
    all_some (map int_of_cell values) = Some ks /\
    ranked = mkDF (take 0%nat (argsort_desc ks) (df_index df))
                  (map (fun c => (fst c, take NaN (argsort_desc ks) (snd c)))
                       (df_data df)).
Proof.
  unfold sort_values_desc.
  destruct (filter _ (df_data df)) as [|c [|c' rest]] eqn:E; try discriminate.
  destruct (all_some (map int_of_cell (snd c))) as [ks|] eqn:Ek; [|discriminate].
  intros [= <-]. apply filter_singleton in E. destruct E as [Hin He].
  apply String.eqb_eq in He. exists (snd c), ks. repeat split; try assumption.
  rewrite <- He. now destruct c.
Qed.

(** The discarded table of lines 148-150, read by row label: the row of the
    [i]-th item carries the length of that item's list of replies, or 0 when
    the value is no list. *)
Lemma replies_ranking_loc video_id response items df ranked i item :
  getitem response "items" = Return (JList items) ->
  comments_table video_id response = Return df ->
  replies_ranking df = Return ranked ->
  nth_error items i = Some item ->
  loc ranked i "number_replies"
  = Some (Py (JNum (len_if_list (item_cell "replies.comments" item)))).
Proof.
  intros Hitems Htable Hrank Hitem.
  destruct (comments_table_of_items _ _ _ _ Hitems Htable) as [Hindex Hcols].
  unfold replies_ranking in Hrank. bind_inv Hrank. rename x into df1.
  unfold assign_number_replies in Hx. bind_inv Hx. rename x into series.
  injection Hx as <-.
  (* the replies column lists the items' values *)
  apply getitem_column_Return in Hx0.
  assert (Hseries : series = map (item_cell "replies.comments") items).
  { rewrite Forall_forall in Hcols. destruct (Hcols _ Hx0) as [E|[k [Hk Hv]]].
    - discriminate.
    - cbn [fst snd] in Hk, Hv. symmetry in Hk.
      apply rename_label_target in Hk; [now subst|].
      simpl. intuition discriminate. }
  (* the keys of the sort *)
  apply sort_values_desc_Return in Hrank.
  destruct Hrank as [values [ks [Hin [Hks ->]]]].
  set (counts := apply (fun y => JNum (len_if_list y)) series) in *.
  assert (Hvalues : values = counts).
  { now apply (set_column_values "number_replies" counts df ("number_replies", values)). }
  subst values. unfold counts in Hks. rewrite int_cells_of_apply in Hks.
  injection Hks as <-.
  set (positions := argsort_desc (map len_if_list series)).
  assert (Hperm : Permutation positions (seq 0 (List.length items))).
  { unfold positions. rewrite argsort_desc_perm.
    now rewrite Hseries, !length_map. }
  (* the row labels of the sorted table are the sorted positions *)
  rewrite set_column_index, Hindex.
  rewrite take_seq.
  2:{ intros p Hp. apply (Permutation_in _ Hperm) in Hp. apply in_seq in Hp. lia. }
  assert (Hi : In i positions).
  { apply (Permutation_in _ (Permutation_sym Hperm)). apply in_seq.
    assert (i < List.length items) by (apply nth_error_Some; congruence). lia. }
  destruct (position_of_In _ _ Hi) as [p [Hp Hnth]].
  unfold loc. cbn [df_index df_data]. rewrite Hp.
  rewrite (dict_get_map_values (take NaN positions)).
  (* the first column labelled number_replies holds the counts *)
  destruct (dict_get "number_replies" (df_data (set_column "number_replies" counts df)))
    as [values|] eqn:Eget.
  2:{ exfalso. revert Eget. apply dict_get_keys.
      apply (set_column_In "number_replies" counts df). }
  apply dict_get_In in Eget.
  apply (set_column_values "number_replies" counts df ("number_replies", values))
    in Eget; [|reflexivity].
  cbn [snd] in Eget. subst values. cbn [option_map].
  unfold take. rewrite nth_error_map, Hnth. cbn [option_map]. f_equal.
  apply nth_error_nth. unfold counts, apply. rewrite Hseries, map_map.
  rewrite nth_error_map, Hitem. reflexivity.
Qed.

(** The table of lines 148-150, which the function drops: after a completed
    [try] block whose table has the replies column, the row of an item whose
    replies value is a list of length 3 has [number_replies] 3 there, and the
    row of an item whose replies value is not a list has [number_replies]
    0. *)
Lemma dropped_ranking_counts_replies video_id youtube_client response items
    df token :
  commentThreads_list youtube_client "id,replies,snippet" video_id 100%Z
    "plainText" = Return response ->
  getitem response "items" = Return (JList items) ->
  top_level_comments_try video_id youtube_client = Return (df, token) ->
  in_columns "replies.comments" df = true ->
  exists ranked,
    replies_ranking df = Return ranked /\
    forall i item,
      nth_error items i = Some item ->
      (forall l, dict_get "replies.comments" (record_of item) = Some (JList l) ->
                 List.length l = 3%nat ->
                 loc ranked i "number_replies" = Some (Py (JNum 3))) /\
      ((forall l, dict_get "replies.comments" (record_of item) <> Some (JList l)) ->
       loc ranked i "number_replies" = Some (Py (JNum 0))).
Proof.
  intros Hcall Hitems Htry Hreplies.
  apply top_level_comments_try_Return in Htry.
  destruct Htry as [response' [Hcall' [Htable [Hrank _]]]].
  rewrite Hcall in Hcall'. injection Hcall' as <-.
  destruct (Hrank Hreplies) as [ranked Hranked].
  exists ranked. split; [assumption|].
  intros i item Hitem.
  rewrite (replies_ranking_loc _ _ _ _ _ _ _ Hitems Htable Hranked Hitem).
  unfold item_cell. split.
  - intros l -> Hlen. simpl. now rewrite Hlen.
  - intros Hnot.
    destruct (dict_get "replies.comments" (record_of item)) as [[| | | |l|]|];
      try reflexivity.
    exfalso. now apply (Hnot l).
Qed.

(** ** Well-formed responses reach the end of the [try] blocks *)

Lemma getitem_list_present labels df :
  (forall l, In l labels -> In l (columns df)) ->
  getitem_list labels df =
  Return (mkDF (df_index df)
               (flat_map (fun l => filter (fun c => String.eqb (fst c) l) (df_data df))
                         labels)).
Proof.
  intros H. apply missing_labels_nil in H. unfold getitem_list. now rewrite H.
Qed.

(** A video response with N >= 1 well-formed items takes the success path of
    [get_most_popular_videos]. *)
Lemma popular_videos_try_well_formed region_code youtube video_category_id
    max_results response items :
  videos_list youtube "snippet, statistics,contentDetails, topicDetails"
    "mostPopular" region_code max_results video_category_id = Return response ->
  video_response_ok response = true ->
  getitem response "items" = Return (JList items) ->
  items <> [] ->
  exists df,
    popular_videos_try region_code youtube video_category_id max_results
    = Return df /\
    nrows df = List.length items.
Proof.
  intros Hcall Hok Hitems Hne.
  pose proof (response_has_paths_items _ _ _ Hok Hitems) as Hall.
  destruct (json_normalize_has_paths video_paths items Hne Hall) as [Hnorm Hpaths].
  set (df0 := DataFrame_of_records (map record_of items)) in *.
  assert (Hlabel : forall l, In l (map path_label video_paths) -> In l (columns df0)).
  { intros l Hl. apply in_map_iff in Hl. destruct Hl as [path [<- Hpath]].
    now apply Hpaths. }
  unfold popular_videos_try. rewrite Hcall. cbn [bind]. rewrite Hitems. cbn [bind].
  rewrite Hnorm. cbn [bind].
  rewrite drop_present by (intros l Hl; apply Hlabel; simpl in *; tauto).
  cbn [bind].
  set (dropped := mkDF (df_index df0) _).
  assert (Hcols : columns dropped =
                  filter (fun k => negb (mem k ["etag"; "kind"; "snippet.channelId"]))
                         (columns df0)).
  { apply (columns_filter
             (fun k => negb (mem k ["etag"; "kind"; "snippet.channelId"]))). }
  rewrite getitem_list_present.
  - cbn [bind]. eexists. split; [reflexivity|].
    unfold setitem, nrows. rewrite !set_column_index. unfold rename, dropped, df0, DataFrame_of_records.
    cbn [df_index]. now rewrite length_seq, length_map.
  - intros l Hl. apply in_app_or in Hl. destruct Hl as [Hl|Hl].
    + rewrite Hcols. apply filter_In. split.
      * apply Hlabel. simpl in *. tauto.
      * simpl in Hl.
        destruct Hl as [<-|[<-|[<-|[<-|[<-|[<-|[]]]]]]]; reflexivity.
    + now apply filter_In in Hl.
Qed.

Lemma filter_other_label (data : list (string * list cell)) l l' :
  l <> l' ->
  filter (fun c => String.eqb (fst c) l')
         (filter (fun c => String.eqb (fst c) l) data) = [].
Proof.
  intros Hne. apply filter_none. intros c Hc. apply filter_In in Hc.
  destruct Hc as [_ Hc]. apply String.eqb_eq in Hc. apply String.eqb_neq.
  congruence.
Qed.

Lemma filter_same_label (data : list (string * list cell)) l :
  filter (fun c => String.eqb (fst c) l)
         (filter (fun c => String.eqb (fst c) l) data)
  = filter (fun c => String.eqb (fst c) l) data.
Proof. apply filter_filter_implied. auto. Qed.

(** Renaming leaves exactly one replies column when the flattened response
    has one. *)
Lemma replies_column_unique df0 :
  NoDup (columns df0) -> In "replies.comments" (columns df0) ->
  exists values,
    filter (fun c => String.eqb (fst c) "replies.comments")
           (df_data (rename comment_renames df0))
    = [("replies.comments", values)].
Proof.
  intros Hnd Hin. unfold rename. cbn [df_data].
  rewrite filter_map_swap.
  destruct (filter_label_unique (df_data df0) "replies.comments" Hnd Hin)
    as [values Hvalues].
  exists values.
  rewrite (filter_ext _ (fun c => String.eqb (fst c) "replies.comments")).
  - now rewrite Hvalues.
  - intros [k v]. cbn [fst snd].
    destruct (String.eqb (rename_label comment_renames k) "replies.comments") eqn:E.
    + apply String.eqb_eq in E. apply rename_label_target in E.
      * subst k. reflexivity.
      * simpl. intuition discriminate.
    + destruct (String.eqb k "replies.comments") eqn:E'; [|reflexivity].
      apply String.eqb_eq in E'. subst k. discriminate.
Qed.

(** The expression statement of lines 148-150 raises nothing on the table
    of line 145. *)
Lemma replies_ranking_returns video_id response df :
  comments_table video_id response = Return df ->
  in_columns "replies.comments" df = true ->
  exists ranked, replies_ranking df = Return ranked.
Proof.
  intros Htable Hreplies.
  pose proof Htable as Htable'. apply comments_table_Return in Htable'.
  destruct Htable' as [data [df0 [Hitems [Hnorm [Hpresent Hdf]]]]].
  pose proof (comments_table_columns _ _ _ _ _ Hitems Hnorm Htable) as Hcols.
  assert (Hin0 : In "replies.comments" (columns df0)).
  { apply mem_In in Hreplies. apply Hcols in Hreplies.
    destruct Hreplies as [H|[_ H]]; [|assumption].
    simpl in H. intuition discriminate. }
  pose proof (json_normalize_NoDup _ _ Hnorm) as Hnd.
  destruct (replies_column_unique df0 Hnd Hin0) as [values Hvalues].
  assert (Hsel : selected_cols (rename comment_renames df0)
                 = ["comment_id"; "like_count"; "comment_text"; "replies.comments"]).
  { unfold selected_cols.
    now rewrite (proj2 (replies_column_renamed df0) Hin0). }
  assert (Hcolumn : getitem_column "replies.comments" df = Return values).
  { unfold getitem_column. rewrite Hdf, Hsel. cbn [df_data flat_map].
    rewrite !filter_app, filter_same_label, Hvalues.
    rewrite !filter_other_label by discriminate. reflexivity. }
  unfold replies_ranking, assign_number_replies. rewrite Hcolumn. cbn [bind].
  set (counts := apply _ values).
  assert (Hnew : in_columns "number_replies" df = false).
  { apply mem_not_In. rewrite Hcols. simpl. intuition discriminate. }
  unfold set_column. rewrite Hnew. unfold sort_values_desc. cbn [df_data].
  rewrite filter_app.
  rewrite (filter_none _ (df_data df)).
  2:{ intros c Hc. apply String.eqb_neq. intros E. apply mem_not_In in Hnew.
      apply Hnew. unfold columns. rewrite <- E. now apply in_map. }
  cbn [filter fst app]. rewrite String.eqb_refl. cbn [snd].
  unfold counts. rewrite int_cells_of_apply. eauto.
Qed.

(** A comment response with N >= 1 well-formed items takes the success path
    of [get_top_level_comments]. *)
Lemma comments_try_well_formed video_id youtube_client response items :
  commentThreads_list youtube_client "id,replies,snippet" video_id 100%Z
    "plainText" = Return response ->
  comment_response_ok response = true ->
  getitem response "items" = Return (JList items) ->
  items <> [] ->
  exists df token,
    top_level_comments_try video_id youtube_client = Return (df, token) /\
    nrows df = List.length items.
Proof.
  intros Hcall Hok Hitems Hne.
  pose proof (response_has_paths_items _ _ _ Hok Hitems) as Hall.
  destruct (json_normalize_has_paths comment_paths items Hne Hall) as [Hnorm Hpaths].
  set (df0 := DataFrame_of_records (map record_of items)) in *.
  assert (Hpresent : forall l, In l (selected_cols (rename comment_renames df0)) ->
                               In l (columns (rename comment_renames df0))).
  { intros l Hl. apply selected_cols_In in Hl. destruct Hl as [Hl|[-> Hl]].
    - rewrite columns_rename. simpl in Hl.
      destruct Hl as [<-|[<-|[<-|[]]]].
      + apply (in_map (rename_label comment_renames) _ "id").
        apply (Hpaths ["id"]). simpl. auto.
      + apply (in_map (rename_label comment_renames) _
                 "snippet.topLevelComment.snippet.likeCount").
        apply (Hpaths ["snippet"; "topLevelComment"; "snippet"; "likeCount"]).
        simpl. auto.
      + apply (in_map (rename_label comment_renames) _
                 "snippet.topLevelComment.snippet.textDisplay").
        apply (Hpaths ["snippet"; "topLevelComment"; "snippet"; "textDisplay"]).
        simpl. auto.
    - now apply mem_In. }
  assert (Htable : exists df, comments_table video_id response = Return df /\
                              nrows df = List.length items).
  { unfold comments_table. rewrite Hitems. cbn [bind]. rewrite Hnorm. cbn [bind].
    rewrite (getitem_list_present _ _ Hpresent). cbn [bind].
    eexists. split; [reflexivity|].
    unfold assign, setitem, nrows. rewrite set_column_index.
    unfold rename, df0, DataFrame_of_records. cbn [df_index].
    now rewrite length_seq, length_map. }
  destruct Htable as [df [Htable Hrows]].
  assert (Hstatement :
            (if in_columns "replies.comments" df
             then replies_ranking df ;;; Return tt
             else Return tt) = Return tt).
  { destruct (in_columns "replies.comments" df) eqn:E; [|reflexivity].
    destruct (replies_ranking_returns _ _ _ Htable E) as [ranked ->]. reflexivity. }
  destruct (getitem_Return_dict _ _ _ Hitems) as [kvs [-> _]].
  unfold top_level_comments_try. rewrite Hcall. cbn [bind].
  rewrite Htable. cbn [bind]. rewrite Hstatement. cbn [bind py_in].
  destruct (mem "nextPageToken" (keys kvs)) eqn:E.
  - apply mem_In, dict_get_keys in E.
    destruct (dict_get "nextPageToken" kvs) as [v|] eqn:Ev; [|congruence].
    exists df, v. cbn [getitem]. rewrite Ev. cbn [bind]. now split.
  - exists df, JNull. cbn [bind]. now split.
Qed.

(** * Concrete runs *)

Lemma dropped_ranking_counts_replies_run :
  exists ranked,
    replies_ranking sample_comments_table = Return ranked /\
    loc ranked 2 "number_replies" = Some (Py (JNum 3)) /\
    loc ranked 1 "number_replies" = Some (Py (JNum 0)).
Proof.
  destruct (dropped_ranking_counts_replies "v1" sample_client
              sample_comment_response sample_comment_items
              sample_comments_table (JStr "QURTSl9p"))
    as [ranked [Hranked Hloc]];
    [reflexivity | reflexivity | vm_compute; reflexivity | reflexivity |].
  exists ranked. split; [exact Hranked|]. split.
  - apply (proj1 (Hloc 2%nat (sample_comment "c" 7 (sample_replies 3)) eq_refl)
             [JObj []; JObj []; JObj []]); reflexivity.
  - apply (proj2 (Hloc 1%nat (sample_comment "b" 0 []) eq_refl)).
    intros l H. vm_compute in H. discriminate.
Defined.


Lemma C3_sample_run :
  get_top_level_comments "v1"
    (constant_client (Raise (mkExn HttpError "commentsDisabled")))
  = Return (empty_DataFrame, JNull) /\
  get_top_level_comments "v1" (constant_client (Return empty_items_response))
  = Raise (mkExn KeyError "['comment_id', 'like_count', 'comment_text'] not in index").
Proof.
  split.
  - apply (C3_comments_catch_HttpError "v1"
             (constant_client (Raise (mkExn HttpError "commentsDisabled")))
             (mkExn HttpError "commentsDisabled")); vm_compute; reflexivity.
  - apply (C3_comments_catch_HttpError "v1"
             (constant_client (Return empty_items_response))
             (mkExn KeyError
                "['comment_id', 'like_count', 'comment_text'] not in index"));
      vm_compute; reflexivity.
Defined.

Lemma C4_sample_run :
  get_most_popular_videos "GB" (constant_client (Return sample_video_response))
    (Some "10") 50 false = ([], Return sample_videos_table) /\
  columns sample_videos_table =
    ["id"; "published_at"; "channel_title"; "title"; "description"; "duration";
     "view_count"; "region_code"; "video_category_id"] /\
  ~ In "like_count" (columns sample_videos_table).
Proof.
  destruct (C4_popular_videos_columns "GB"
              (constant_client (Return sample_video_response)) (Some "10") 50 false
              sample_video_response
              (JList [sample_video "a"; sample_video "b"])
              (DataFrame_of_records
                 (map record_of [sample_video "a"; sample_video "b"]))
              sample_videos_table)
    as [Hrun [_ Hview]];
    [reflexivity | reflexivity | reflexivity | vm_compute; reflexivity |].
  split; [exact Hrun|]. apply Hview. vm_compute. reflexivity.
Defined.

(** C5 as stated fails on a response with no item: the response is well
    formed, and [drop] raises [KeyError] on the table without columns, so no
    table of 0 rows is returned. *)
Lemma C5_empty_items_raise :
  category_response_ok empty_items_response = true /\
  get_video_categories "GB" (constant_client (Return empty_items_response))
  = Raise (mkExn KeyError "['kind', 'etag', 'snippet.channelId'] not found in axis") /\
  ~ (exists df,
       get_video_categories "GB" (constant_client (Return empty_items_response))
       = Return df /\ nrows df = 0%nat).
Proof.
  split; [reflexivity|]. split; [vm_compute; reflexivity|].
  intros [df [H _]]. vm_compute in H. discriminate.
Qed.

Lemma C5_sample_run :
  exists df,
    get_video_categories "GB" (constant_client (Return sample_category_response))
    = Return df /\
    nrows df = 2%nat /\
    (forall c, In c (df_data df) -> fst c = "region_code" ->
               snd c = [Py (JStr "GB"); Py (JStr "GB")]) /\
    ~ In "kind" (columns df) /\ ~ In "etag" (columns df) /\
    ~ In "snippet.channelId" (columns df).
Proof.
  destruct (C5_categories_table "GB"
              (constant_client (Return sample_category_response))
              sample_category_response
              [sample_category "1" "Film & Animation";
               sample_category "2" "Autos & Vehicles"])
    as [df [Hrun [Hrows [_ [_ [Hregion [Hkind [Hetag Hchannel]]]]]]]];
    [reflexivity | reflexivity | reflexivity | discriminate |].
  exists df. repeat split; assumption.
Defined.

Lemma C6_sample_run :
  get_top_level_comments "v1" sample_client
  = Return (sample_comments_table, JStr "QURTSl9p") /\
  get_top_level_comments "v1"
    (constant_client (Return (JObj [("items", JList sample_comment_items)])))
  = Return (sample_comments_table, JNull).
Proof.
  split.
  - destruct (C6_next_page_token "v1" sample_client sample_comments_table
                (JStr "QURTSl9p"))
      as [kvs [_ [Hrun _]]]; [vm_compute; reflexivity|].
    exact Hrun.
  - destruct (C6_next_page_token "v1"
                (constant_client
                   (Return (JObj [("items", JList sample_comment_items)])))
                sample_comments_table JNull)
      as [kvs [_ [Hrun _]]]; [vm_compute; reflexivity|].
    exact Hrun.
Defined.


Lemma C8_sample_run :
  In "video_id" (columns sample_comments_table) /\
  (forall c, In c (df_data sample_comments_table) -> fst c = "video_id" ->
             snd c = [Py (JStr "v1"); Py (JStr "v1"); Py (JStr "v1")]).
Proof.
  destruct (C8_video_id_stamped "v1" sample_client sample_comments_table
              (JStr "QURTSl9p"))
    as [_ [Hin Hall]]; [vm_compute; reflexivity|].
  split; [exact Hin | exact Hall].
Defined.

Lemma C9_sample_run :
  (exists df,
     snd (get_most_popular_videos "GB"
            (constant_client (Return empty_items_response)) None 50 false)
     = Return df /\ columns df = [] /\ nrows df = 0%nat) /\
  (exists df,
     get_top_level_comments "v1"
       (constant_client (Raise (mkExn HttpError "commentsDisabled")))
     = Return (df, JNull) /\ columns df = [] /\ nrows df = 0%nat) /\
  columns sample_videos_table <> columns empty_DataFrame /\
  columns sample_comments_table <> columns empty_DataFrame.
Proof.
  destruct C9_error_path_has_no_columns as [Hpopular [Hcomments [Hvideos Hthreads]]].
  split; [|split; [|split]].
  - apply (Hpopular "GB" (constant_client (Return empty_items_response)) None 50%Z
             false
             (mkExn KeyError "['etag', 'kind', 'snippet.channelId'] not found in axis"));
      vm_compute; reflexivity.
  - apply (Hcomments "v1"
             (constant_client (Raise (mkExn HttpError "commentsDisabled")))
             (mkExn HttpError "commentsDisabled")); vm_compute; reflexivity.
  - apply (Hvideos "GB" (constant_client (Return sample_video_response))
             (Some "10") 50%Z false sample_videos_table).
    vm_compute; reflexivity.
  - apply (Hthreads "v1" sample_client sample_comments_table (JStr "QURTSl9p")).
    vm_compute; reflexivity.
Defined.

Lemma C10_sample_run :
  ~ In "number_replies" (columns sample_comments_table) /\
  (forall c, In c (columns sample_comments_table) <->
             In c ["comment_id"; "like_count"; "comment_text"; "video_id"] \/
             c = "replies.comments").
Proof.
  destruct (C10_no_number_replies_column "v1" sample_client sample_comments_table
              (JStr "QURTSl9p")) as [Hnone Hexact].
  split.
  - apply Hnone. vm_compute. reflexivity.
  - intros c.
    rewrite (Hexact sample_comment_response (JList sample_comment_items)
               (DataFrame_of_records (map record_of sample_comment_items))
               eq_refl eq_refl eq_refl eq_refl c).
    split; (intros [H|H]; [now left | right]).
    + now destruct H.
    + split; [exact H | vm_compute; tauto].
Defined.

(** C1 on the sample response, whose third item has a list of three
    replies: [get_top_level_comments] returns the table of line 145, which
    has the replies column and that list in the row of the item, but no
    [number_replies] column, so the row has no [number_replies] at all.  The
    count 3 only exists in the table lines 148-150 compute from it, which is
    bound to no name and is not what the function returns. *)
Theorem C1_number_replies_missing_from_result :
  get_top_level_comments "v1" sample_client
  = Return (sample_comments_table, JStr "QURTSl9p") /\
  in_columns "replies.comments" sample_comments_table = true /\
  loc sample_comments_table 2 "replies.comments"
  = Some (Py (JList [JObj []; JObj []; JObj []])) /\
  in_columns "number_replies" sample_comments_table = false /\
  loc sample_comments_table 2 "number_replies" = None /\
  (exists ranked,
     replies_ranking sample_comments_table = Return ranked /\
     loc ranked 2 "number_replies" = Some (Py (JNum 3)) /\
     ranked <> sample_comments_table).
Proof.
  split; [vm_compute; reflexivity|]. repeat (split; [reflexivity|]).
  eexists. split; [vm_compute; reflexivity|]. split; [reflexivity|].
  discriminate.
Qed.


(** * Further properties *)

(** ** What the reshaping steps raise *)

Lemma bind_Raise {A B : Type} (m : outcome A) (k : A -> outcome B) e :
  bind m k = Raise e ->
  m = Raise e \/ exists a, m = Return a /\ k a = Raise e.
Proof. destruct m; simpl; intros H; try discriminate; [eauto | left; congruence]. Qed.

Lemma reshaping_error_classes e :
  reshaping_error e ->
  isinstance e Exception = true /\ isinstance e HttpError = false.
Proof.
  unfold reshaping_error, isinstance. simpl.
  intros [<-|[<-|[<-|[<-|[]]]]]; split; reflexivity.
Qed.

Lemma getitem_Raise v key e : getitem v key = Raise e -> reshaping_error e.
Proof.
  unfold reshaping_error. destruct v as [| | | | |kvs]; simpl;
    try (intros [= <-]; simpl; tauto).
  destruct (dict_get key kvs); [discriminate|]. intros [= <-]. simpl. tauto.
Qed.

Lemma json_normalize_Raise data e : json_normalize data = Raise e -> reshaping_error e.
Proof.
  unfold reshaping_error. destruct data as [| | | |l|kvs]; simpl;
    try (intros [= <-]; simpl; tauto); try discriminate.
  destruct l as [|x l]; [discriminate|].
  destruct (all_some _); discriminate.
Qed.

Lemma drop_Raise labels df e :
  drop labels df = Raise e -> exn_class e = KeyError.
Proof.
  unfold drop. destruct (missing_labels labels df); [discriminate|].
  now intros [= <-].
Qed.

Lemma getitem_list_Raise labels df e :
  getitem_list labels df = Raise e -> exn_class e = KeyError.
Proof.
  unfold getitem_list. destruct (missing_labels labels df); [discriminate|].
  now intros [= <-].
Qed.

Lemma py_in_Raise key v e : py_in key v = Raise e -> reshaping_error e.
Proof.
  unfold reshaping_error.
  destruct v; simpl; try discriminate; intros [= <-]; simpl; tauto.
Qed.

Lemma drop_missing labels df l :
  In l labels -> ~ In l (columns df) ->
  exists e, drop labels df = Raise e /\ exn_class e = KeyError.
Proof.
  intros Hl Hnot. unfold drop.
  destruct (missing_labels labels df) as [|m ms] eqn:E.
  - exfalso. apply Hnot. now apply (proj1 (missing_labels_nil labels df) E).
  - eexists. split; reflexivity.
Qed.

Lemma getitem_list_missing labels df l :
  In l labels -> ~ In l (columns df) ->
  exists e, getitem_list labels df = Raise e /\ exn_class e = KeyError.
Proof.
  intros Hl Hnot. unfold getitem_list.
  destruct (missing_labels labels df) as [|m ms] eqn:E.
  - exfalso. apply Hnot. now apply (proj1 (missing_labels_nil labels df) E).
  - eexists. split; reflexivity.
Qed.

Lemma KeyError_reshaping e : exn_class e = KeyError -> reshaping_error e.
Proof. unfold reshaping_error. intros ->. simpl. tauto. Qed.

(** ** get_video_categories: errors *)

(** X1: [get_video_categories] handles nothing.  An exception of the client
    call, of whatever class, reaches the caller unchanged; a response
    without ["items"] raises [KeyError]; and so does a response whose
    flattened table lacks one of the columns [kind], [etag],
    [snippet.channelId] that line 31 drops. *)
Theorem X1_categories_errors_reach_caller region_code youtube :
  (forall e,
     videoCategories_list youtube "snippet" region_code true = Raise e ->
     get_video_categories region_code youtube = Raise e) /\
  (forall kvs,
     videoCategories_list youtube "snippet" region_code true = Return (JObj kvs) ->
     dict_get "items" kvs = None ->
     exists e, get_video_categories region_code youtube = Raise e /\
               exn_class e = KeyError) /\
  (forall response data df0 l,
     videoCategories_list youtube "snippet" region_code true = Return response ->
     getitem response "items" = Return data ->
     json_normalize data = Return df0 ->
     In l ["kind"; "etag"; "snippet.channelId"] ->
     ~ In l (columns df0) ->
     exists e, get_video_categories region_code youtube = Raise e /\
               exn_class e = KeyError).
Proof.
  unfold get_video_categories. split; [|split].
  - intros e ->. reflexivity.
  - intros kvs -> Hnone. cbn [bind getitem]. rewrite Hnone.
    eexists. split; reflexivity.
  - intros response data df0 l -> Hitems Hnorm Hl Hnot. cbn [bind].
    rewrite Hitems. cbn [bind]. rewrite Hnorm. cbn [bind].
    destruct (drop_missing _ _ _ Hl Hnot) as [e [-> Hclass]].
    exists e. now split.
Qed.

(** ** get_most_popular_videos: errors *)

Lemma missing_labels_cons labels df m ms :
  missing_labels labels df = m :: ms -> In m labels /\ ~ In m (columns df).
Proof.
  unfold missing_labels. intros E.
  assert (H : In m (filter (fun l => negb (in_columns l df)) labels))
    by (rewrite E; now left).
  apply filter_In in H. destruct H as [Hin Hneg]. split; [assumption|].
  apply negb_true_iff in Hneg. now apply mem_not_In.
Qed.

Lemma drop_Raise_missing labels df e :
  drop labels df = Raise e -> exists l, In l labels /\ ~ In l (columns df).
Proof.
  unfold drop. destruct (missing_labels labels df) as [|m ms] eqn:E; [discriminate|].
  intros _. exists m. now apply missing_labels_cons with (ms := ms).
Qed.

Lemma getitem_list_Raise_missing labels df e :
  getitem_list labels df = Raise e -> exists l, In l labels /\ ~ In l (columns df).
Proof.
  unfold getitem_list.
  destruct (missing_labels labels df) as [|m ms] eqn:E; [discriminate|].
  intros _. exists m. now apply missing_labels_cons with (ms := ms).
Qed.

(** Once the client has answered, the [try] block of
    [get_most_popular_videos] raises exactly when data is missing, and then
    an error of the reshaping steps. *)
Lemma popular_videos_try_Raise region_code youtube video_category_id
    max_results response e :
  videos_list youtube "snippet, statistics,contentDetails, topicDetails"
    "mostPopular" region_code max_results video_category_id = Return response ->
  popular_videos_try region_code youtube video_category_id max_results = Raise e ->
  reshaping_error e /\ video_data_missing response.
Proof.
  intros Hcall Htry. unfold popular_videos_try in Htry.
  rewrite Hcall in Htry. cbn [bind] in Htry.
  apply bind_Raise in Htry. destruct Htry as [Hitems|[data [Hitems Htry]]].
  { split; [now apply getitem_Raise in Hitems | left; eauto]. }
  apply bind_Raise in Htry. destruct Htry as [Hnorm|[df0 [Hnorm Htry]]].
  { split; [now apply json_normalize_Raise in Hnorm|].
    right. exists data. split; [assumption|]. left. eauto. }
  assert (Hmissing : forall l, In l video_required_columns -> ~ In l (columns df0) ->
                               video_data_missing response).
  { intros l Hl Hnot. right. exists data. split; [assumption|]. right.
    exists df0. split; [assumption|]. eauto. }
  apply bind_Raise in Htry. destruct Htry as [Hdrop|[dropped [Hdrop Htry]]].
  { split; [now apply drop_Raise, KeyError_reshaping in Hdrop|].
    apply drop_Raise_missing in Hdrop. destruct Hdrop as [l [Hl Hnot]].
    apply (Hmissing l); [|assumption].
    unfold video_required_columns. apply in_or_app. now left. }
  apply bind_Raise in Htry. destruct Htry as [Hsel|[selected [_ Htry]]];
    [|discriminate].
  split; [now apply getitem_list_Raise, KeyError_reshaping in Hsel|].
  apply getitem_list_Raise_missing in Hsel. destruct Hsel as [l [Hl Hnot]].
  apply drop_Return in Hdrop. destruct Hdrop as [_ ->].
  rewrite (columns_filter
             (fun k => negb (mem k ["etag"; "kind"; "snippet.channelId"]))) in Hl, Hnot.
  apply in_app_or in Hl.
  destruct Hl as [Hl|Hl]; [|apply filter_In in Hl; destruct Hl as [Hl _]; contradiction].
  apply (Hmissing l).
  - unfold video_required_columns. apply in_or_app. now right.
  - intros Hin. apply Hnot. apply filter_In. split; [assumption|].
    simpl in Hl. destruct Hl as [<-|[<-|[<-|[<-|[<-|[<-|[]]]]]]]; reflexivity.
Qed.

Lemma popular_videos_try_missing region_code youtube video_category_id
    max_results response :
  videos_list youtube "snippet, statistics,contentDetails, topicDetails"
    "mostPopular" region_code max_results video_category_id = Return response ->
  video_data_missing response ->
  exists e,
    popular_videos_try region_code youtube video_category_id max_results = Raise e /\
    reshaping_error e.
Proof.
  intros Hcall Hmissing. unfold popular_videos_try. rewrite Hcall. cbn [bind].
  destruct Hmissing as [[e He]|[data [Hitems [[e He]|[df0 [Hnorm [l [Hl Hnot]]]]]]]].
  - rewrite He. exists e. split; [reflexivity | now apply getitem_Raise in He].
  - rewrite Hitems. cbn [bind]. rewrite He. exists e.
    split; [reflexivity | now apply json_normalize_Raise in He].
  - rewrite Hitems. cbn [bind]. rewrite Hnorm. cbn [bind].
    destruct (drop ["etag"; "kind"; "snippet.channelId"] df0) as [dropped|e|] eqn:Hdrop.
    + cbn [bind]. apply drop_Return in Hdrop. destruct Hdrop as [Hpresent ->].
      unfold video_required_columns in Hl. apply in_app_or in Hl.
      destruct Hl as [Hl|Hl]; [exfalso; now apply Hnot, Hpresent|].
      set (dropped := mkDF _ _).
      destruct (getitem_list_missing
                  (video_selected_columns
                   ++ filter (fun col => str_contains "statistics" col)
                             (columns dropped)) dropped l) as [e [He Hclass]].
      * apply in_or_app. now left.
      * unfold dropped.
        rewrite (columns_filter
                   (fun k => negb (mem k ["etag"; "kind"; "snippet.channelId"]))).
        intros Hin. apply filter_In in Hin. now apply Hnot.
      * unfold video_selected_columns in He. rewrite He. exists e.
        split; [reflexivity | now apply KeyError_reshaping].
    + exists e. split; [reflexivity|]. now apply drop_Raise, KeyError_reshaping in Hdrop.
    + exfalso. unfold drop in Hdrop.
      destruct (missing_labels _ df0); discriminate.
Qed.

(** X2: once the client has answered, [get_most_popular_videos] returns the
    empty table exactly when data is missing from the response (no
    ["items"], ["items"] that cannot be flattened, or a flattened table
    without one of the nine columns the function drops or selects by name),
    and it raises nothing.  An empty ["items"] array is such a response. *)
Theorem X2_popular_videos_empty_iff_data_missing region_code youtube
    video_category_id max_results verbose response :
  videos_list youtube "snippet, statistics,contentDetails, topicDetails"
    "mostPopular" region_code max_results video_category_id = Return response ->
  (snd (get_most_popular_videos region_code youtube video_category_id
          max_results verbose) = Return empty_DataFrame
   <-> video_data_missing response) /\
  (forall e, snd (get_most_popular_videos region_code youtube video_category_id
                    max_results verbose) <> Raise e) /\
  (getitem response "items" = Return (JList []) -> video_data_missing response).
Proof.
  intros Hcall. unfold get_most_popular_videos, try_except_printing.
  destruct (popular_videos_try region_code youtube video_category_id max_results)
    as [df|e|] eqn:Htry.
  - split; [|split].
    + cbn [snd]. split.
      * intros [= ->]. apply popular_videos_try_stamped in Htry.
        destruct Htry as [[] _].
      * intros Hmissing.
        destruct (popular_videos_try_missing _ _ _ _ _ Hcall Hmissing) as [e [He _]].
        congruence.
    + discriminate.
    + intros Hitems. right. exists (JList []). split; [assumption|]. right.
      exists empty_DataFrame. split; [reflexivity|].
      exists "etag". split; [now left | simpl; auto].
  - destruct (popular_videos_try_Raise _ _ _ _ _ _ Hcall Htry) as [Herr Hmissing].
    apply reshaping_error_classes in Herr. destruct Herr as [-> _].
    split; [|split].
    + cbn [snd]. tauto.
    + discriminate.
    + intros Hitems. right. exists (JList []). split; [assumption|]. right.
      exists empty_DataFrame. split; [reflexivity|].
      exists "etag". split; [now left | simpl; auto].
  - split; [|split].
    + cbn [snd]. split; [discriminate|].
      intros Hmissing.
      destruct (popular_videos_try_missing _ _ _ _ _ Hcall Hmissing) as [e [He _]].
      congruence.
    + discriminate.
    + intros Hitems. right. exists (JList []). split; [assumption|]. right.
      exists empty_DataFrame. split; [reflexivity|].
      exists "etag". split; [now left | simpl; auto].
Qed.

(** ** get_most_popular_videos: the table *)

Lemma records_column records l :
  In l (columns (DataFrame_of_records records)) ->
  filter (fun c => String.eqb (fst c) l) (df_data (DataFrame_of_records records))
  = [(l, map (fun r => cell_of (dict_get l r)) records)].
Proof.
  intros Hin.
  destruct (filter_label_unique (df_data (DataFrame_of_records records)) l
              (columns_of_records_NoDup records) Hin) as [values Hvalues].
  rewrite Hvalues. f_equal. f_equal.
  assert (Hc : In (l, values) (df_data (DataFrame_of_records records))).
  { apply (filter_singleton _ _ _ Hvalues). }
  unfold DataFrame_of_records in Hc. cbn [df_data] in Hc.
  apply in_map_iff in Hc. destruct Hc as [k [[= -> <-] _]]. reflexivity.
Qed.

Lemma filter_comm {A : Type} (f g : A -> bool) (l : list A) :
  filter f (filter g l) = filter g (filter f l).
Proof.
  induction l as [|x l IH]; simpl; [reflexivity|].
  destruct (g x) eqn:Eg, (f x) eqn:Ef; simpl; rewrite ?Eg, ?Ef, IH; reflexivity.
Qed.

Lemma flat_map_singletons {A B : Type} (F : A -> list B) (G : A -> B) (l : list A) :
  (forall a, In a l -> F a = [G a]) -> flat_map F l = map G l.
Proof.
  induction l as [|a l IH]; intros H; simpl; [reflexivity|].
  rewrite (H a) by now left. simpl. f_equal. apply IH. intros b Hb. apply H.
  now right.
Qed.

Lemma set_column_new label values df :
  in_columns label df = false ->
  set_column label values df = mkDF (df_index df) (df_data df ++ [(label, values)]).
Proof. unfold set_column. now intros ->. Qed.

Lemma video_selected_not_dropped l :
  video_selected l -> mem l ["etag"; "kind"; "snippet.channelId"] = false.
Proof.
  intros [H|H].
  - simpl in H. destruct H as [<-|[<-|[<-|[<-|[<-|[<-|[]]]]]]]; reflexivity.
  - apply negb_true_iff. now apply statistics_not_dropped.
Qed.

(** A label that is no target of the renaming and is not selected is not
    the label of a renamed selected column. *)
Lemma video_label_fresh t labels :
  (forall l, In l labels -> video_selected l) ->
  ~ In t (map snd video_renames) -> ~ video_selected t ->
  ~ In t (map (rename_label video_renames) labels).
Proof.
  intros Hsel Htarget Hnot Hin. apply in_map_iff in Hin.
  destruct Hin as [l [Hl Hin]]. apply rename_label_target in Hl; [|assumption].
  subst l. now apply Hnot, Hsel.
Qed.

(** The table the [try] block of [get_most_popular_videos] builds from an
    array of items, column by column. *)
Lemma popular_videos_try_table region_code youtube video_category_id
    max_results response items df :
  videos_list youtube "snippet, statistics,contentDetails, topicDetails"
    "mostPopular" region_code max_results video_category_id = Return response ->
  getitem response "items" = Return (JList items) ->
  popular_videos_try region_code youtube video_category_id max_results = Return df ->
  df = mkDF (seq 0 (List.length items))
         (map (fun l => (rename_label video_renames l, map (item_cell l) items))
              (video_selected_columns
               ++ filter (str_contains "statistics")
                    (columns (DataFrame_of_records (map record_of items))))
          ++ [("region_code", repeat (Py (JStr region_code)) (List.length items));
              ("video_category_id",
               repeat (Py (py_of_option video_category_id)) (List.length items))]).
Proof.
  intros Hcall Hitems Htry.
  unfold popular_videos_try in Htry.
  rewrite Hcall in Htry. cbn [bind] in Htry.
  rewrite Hitems in Htry. cbn [bind] in Htry.
  bind_inv Htry. rename x into df0. bind_inv Htry. rename x into dropped.
  bind_inv Htry. rename x into selected. injection Htry as <-.
  apply drop_Return in Hx0. destruct Hx0 as [Hdropped ->].
  apply getitem_list_Return in Hx1. destruct Hx1 as [Hpresent ->].
  apply json_normalize_list in Hx. destruct Hx as [[_ ->]|[_ ->]].
  { exfalso. apply (Hdropped "etag"). now left. }
  cbn [df_index df_data] in *.
  set (records := map record_of items) in *.
  set (df0 := DataFrame_of_records records) in *.
  set (dropped_data :=
         filter (fun c => negb (mem (fst c) ["etag"; "kind"; "snippet.channelId"]))
                (df_data df0)) in *.
  assert (Hcols : columns (mkDF (df_index df0) dropped_data) =
                  filter (fun k => negb (mem k ["etag"; "kind"; "snippet.channelId"]))
                         (columns df0)).
  { apply (columns_filter
             (fun k => negb (mem k ["etag"; "kind"; "snippet.channelId"]))). }
  rewrite Hcols in Hpresent |- *.
  rewrite (filter_filter_implied (fun col => str_contains "statistics" col) _ _
             statistics_not_dropped) in Hpresent |- *.
  change (filter (str_contains "statistics") (columns df0))
    with (filter (fun col => str_contains "statistics" col) (columns df0)).
  set (labels := video_selected_columns
                 ++ filter (fun col => str_contains "statistics" col) (columns df0)).
  change (["id"; "snippet.publishedAt"; "snippet.channelTitle";
           "snippet.localized.title"; "snippet.localized.description";
           "contentDetails.duration"]
          ++ filter (fun col => str_contains "statistics" col) (columns df0))
    with labels in Hpresent |- *.
  assert (Hselected : forall l, In l labels -> video_selected l).
  { intros l Hl. apply in_app_or in Hl. destruct Hl as [Hl|Hl]; [now left|].
    right. now apply filter_In in Hl. }
  (* each selected label picks its one column *)
  assert (Hpick : forall l, In l labels ->
                    filter (fun c => String.eqb (fst c) l) dropped_data
                    = [(l, map (item_cell l) items)]).
  { intros l Hl. unfold dropped_data, df0. rewrite filter_comm.
    rewrite records_column
      by (apply Hpresent in Hl; apply filter_In in Hl; exact (proj1 Hl)).
    cbn [filter fst]. rewrite (video_selected_not_dropped l (Hselected l Hl)).
    cbn [negb]. unfold records. now rewrite map_map. }
  rewrite (flat_map_singletons _ (fun l => (l, map (item_cell l) items)) labels Hpick).
  unfold rename. cbn [df_index df_data]. rewrite map_map. cbn [fst snd].
  set (renamed := mkDF (df_index df0) _).
  assert (Hfresh : forall t, ~ In t (map snd video_renames) -> ~ video_selected t ->
                             in_columns t renamed = false).
  { intros t Ht Hnot. apply mem_not_In. unfold renamed, columns. cbn [df_data].
    rewrite map_map. cbn [fst]. now apply video_label_fresh. }
  unfold setitem at 2. rewrite set_column_new.
  2:{ apply Hfresh; [simpl; intuition discriminate|].
      intros [Hs|Hs]; [simpl in Hs; intuition discriminate | discriminate]. }
  unfold setitem. rewrite set_column_new.
  2:{ apply mem_not_In. unfold columns. cbn [df_data]. rewrite map_app.
      intros Hin. apply in_app_or in Hin. destruct Hin as [Hin|[Hin|[]]];
        [|discriminate].
      apply mem_not_In in Hin; [assumption|].
      apply Hfresh; [simpl; intuition discriminate|].
      intros [Hs|Hs]; [simpl in Hs; intuition discriminate | discriminate]. }
  unfold nrows, renamed, df0, DataFrame_of_records, records.
  cbn [df_index df_data]. rewrite !length_seq, !length_map.
  now rewrite <- app_assoc.
Qed.

(** The renaming of line 90 keeps selected labels apart. *)
Lemma rename_video_inj l1 l2 :
  video_selected l1 -> video_selected l2 ->
  rename_label video_renames l1 = rename_label video_renames l2 -> l1 = l2.
Proof.
  intros H1 H2. unfold rename_label, video_renames. cbn [dict_get].
  repeat match goal with
         | |- context [String.eqb ?a ?b] => destruct (String.eqb_spec a b)
         end;
    intros Heq; subst; try reflexivity; try discriminate; try congruence;
    exfalso;
    match goal with
    | H : video_selected (String _ _) |- _ =>
        destruct H as [H|H];
        [simpl in H; intuition discriminate | vm_compute in H; discriminate]
    end.
Qed.

Lemma position_of_seq start n i :
  i < n -> position_of (start + i) (seq start n) = Some i.
Proof.
  revert start i. induction n as [|n IH]; intros start i Hi; [lia|].
  simpl. destruct i as [|i].
  - rewrite Nat.add_0_r, Nat.eqb_refl. reflexivity.
  - destruct (Nat.eqb (start + S i) start) eqn:E.
    + apply Nat.eqb_eq in E. lia.
    + replace (start + S i) with (S start + i) by lia.
      rewrite IH by lia. reflexivity.
Qed.

Lemma dict_get_app_notin {A : Type} k (d e : dict A) :
  ~ In k (keys d) -> dict_get k (d ++ e) = dict_get k e.
Proof.
  induction d as [|[k' v] d IH]; simpl; intros H; [reflexivity|].
  destruct (String.eqb_spec k k') as [->|Hne]; [exfalso; apply H; now left|].
  apply IH. intros Hin. apply H. now right.
Qed.

Lemma dict_get_app_in {A : Type} k (d e : dict A) :
  In k (keys d) -> dict_get k (d ++ e) = dict_get k d.
Proof.
  induction d as [|[k' v] d IH]; simpl; intros H; [contradiction|].
  destruct (String.eqb_spec k k') as [->|Hne]; [reflexivity|].
  apply IH. destruct H as [H|H]; [congruence | assumption].
Qed.

(** Reading a column by its label in a list of columns whose labels are told
    apart. *)
Lemma dict_get_labelled {A : Type} (f : string -> string) (g : string -> A)
    (labels : list string) l :
  (forall l', In l' labels -> f l = f l' -> l = l') ->
  In l labels ->
  dict_get (f l) (map (fun l' => (f l', g l')) labels) = Some (g l).
Proof.
  induction labels as [|l0 labels IH]; intros Hinj Hin; simpl; [contradiction|].
  destruct (String.eqb_spec (f l) (f l0)) as [E|E].
  - rewrite (Hinj l0 (or_introl eq_refl) E). reflexivity.
  - destruct Hin as [->|Hin]; [congruence|].
    apply IH; [|assumption]. intros l' Hl'. apply Hinj. now right.
Qed.

Lemma video_labels_selected (labels0 : list string) l :
  In l (video_selected_columns ++ filter (str_contains "statistics") labels0) ->
  video_selected l.
Proof.
  intros Hl. apply in_app_or in Hl. destruct Hl as [Hl|Hl]; [now left|].
  right. now apply filter_In in Hl.
Qed.

Lemma video_labels_NoDup (labels0 : list string) :
  NoDup labels0 ->
  NoDup (video_selected_columns ++ filter (str_contains "statistics") labels0).
Proof.
  intros Hnd. apply NoDup_app.
  - unfold video_selected_columns.
    repeat (constructor; [simpl; intuition discriminate|]). constructor.
  - now apply NoDup_filter.
  - intros l Hl Hstat. apply filter_In in Hstat. destruct Hstat as [_ Hstat].
    simpl in Hl.
    destruct Hl as [<-|[<-|[<-|[<-|[<-|[<-|[]]]]]]]; vm_compute in Hstat;
      discriminate.
Qed.

(** X3: after a completed [try] block on an array of N items, the table of
    [get_most_popular_videos] has the row labels 0..N-1, one cell per row in
    every column, and pairwise distinct column labels. *)
Theorem X3_popular_videos_shape region_code youtube video_category_id
    max_results response items df :
  videos_list youtube "snippet, statistics,contentDetails, topicDetails"
    "mostPopular" region_code max_results video_category_id = Return response ->
  getitem response "items" = Return (JList items) ->
  popular_videos_try region_code youtube video_category_id max_results = Return df ->
  df_index df = seq 0 (List.length items) /\
  nrows df = List.length items /\
  well_shaped df /\
  NoDup (columns df).
Proof.
  intros Hcall Hitems Htry.
  rewrite (popular_videos_try_table _ _ _ _ _ _ _ Hcall Hitems Htry).
  set (labels0 := columns (DataFrame_of_records (map record_of items))).
  set (labels := video_selected_columns ++ filter (str_contains "statistics") labels0).
  unfold well_shaped, nrows, columns. cbn [df_index df_data].
  rewrite length_seq. repeat split.
  - apply Forall_app. split.
    + apply Forall_forall. intros c Hc. apply in_map_iff in Hc.
      destruct Hc as [l [<- _]]. cbn [snd]. apply length_map.
    + repeat constructor; cbn [snd]; apply repeat_length.
  - rewrite map_app, map_map. cbn [fst map].
    assert (Hsel : forall l, In l labels -> video_selected l)
      by (intros l; apply video_labels_selected).
    apply NoDup_app.
    + apply NoDup_map_NoDup_ForallPairs.
      * intros l1 l2 H1 H2. apply rename_video_inj; auto.
      * apply video_labels_NoDup, columns_of_records_NoDup.
    + constructor; [simpl; intuition discriminate|]. constructor; [auto|constructor].
    + intros t Ht Hstamp. revert Ht. apply video_label_fresh; [assumption| |].
      * simpl in Hstamp. destruct Hstamp as [<-|[<-|[]]]; simpl; intuition discriminate.
      * simpl in Hstamp.
        destruct Hstamp as [<-|[<-|[]]];
          (intros [Hs|Hs]; [simpl in Hs; intuition discriminate | discriminate]).
Qed.

(** X4: after a completed [try] block on an array of items, row [i] of the
    table of [get_most_popular_videos] holds the values of item [i]: under
    the renamed label of each selected column that the dtype inference
    leaves alone (strings with or without missing values, as the API gives
    them) the item's value of that column ([NaN] when the item lacks it),
    and the stamped [region_code] and [video_category_id] ([None] when no
    category was given). *)
Theorem X4_popular_videos_row_values region_code youtube video_category_id
    max_results response items df i item :
  videos_list youtube "snippet, statistics,contentDetails, topicDetails"
    "mostPopular" region_code max_results video_category_id = Return response ->
  getitem response "items" = Return (JList items) ->
  popular_videos_try region_code youtube video_category_id max_results = Return df ->
  nth_error items i = Some item ->
  (forall l,
     In l (video_selected_columns
           ++ filter (str_contains "statistics")
                (columns (DataFrame_of_records (map record_of items)))) ->
     kept_by_inference (map (item_cell l) items) = true ->
     loc df i (rename_label video_renames l) = Some (item_cell l item)) /\
  loc df i "region_code" = Some (Py (JStr region_code)) /\
  loc df i "video_category_id" = Some (Py (py_of_option video_category_id)).
Proof.
  intros Hcall Hitems Htry Hitem.
  rewrite (popular_videos_try_table _ _ _ _ _ _ _ Hcall Hitems Htry).
  set (labels0 := columns (DataFrame_of_records (map record_of items))).
  set (labels := video_selected_columns ++ filter (str_contains "statistics") labels0).
  assert (Hi : i < List.length items) by (apply nth_error_Some; congruence).
  assert (Hsel : forall l, In l labels -> video_selected l)
    by (intros l; apply video_labels_selected).
  assert (Hfresh : forall t, In t ["region_code"; "video_category_id"] ->
                     ~ In t (keys (map (fun l => (rename_label video_renames l,
                                                  map (item_cell l) items)) labels))).
  { intros t Hstamp. unfold keys. rewrite map_map. cbn [fst].
    apply video_label_fresh; [assumption| |].
    - simpl in Hstamp. destruct Hstamp as [<-|[<-|[]]]; simpl; intuition discriminate.
    - simpl in Hstamp.
      destruct Hstamp as [<-|[<-|[]]];
        (intros [Hs|Hs]; [simpl in Hs; intuition discriminate | discriminate]). }
  unfold loc. cbn [df_index df_data].
  pose proof (position_of_seq 0 (List.length items) i Hi) as Hpos.
  change (0 + i) with i in Hpos. rewrite Hpos.
  split; [|split].
  - intros l Hl _. rewrite dict_get_app_in.
    + rewrite (dict_get_labelled (rename_label video_renames)
                 (fun l => map (item_cell l) items) labels l); [|
        intros l' Hl'; apply rename_video_inj; auto | assumption].
      now rewrite nth_error_map, Hitem.
    + unfold keys. rewrite map_map. cbn [fst]. now apply in_map.
  - rewrite dict_get_app_notin by (apply Hfresh; simpl; auto).
    cbn [dict_get]. rewrite String.eqb_refl. now apply nth_error_repeat.
  - rewrite dict_get_app_notin by (apply Hfresh; simpl; auto).
    cbn [dict_get]. change (String.eqb "video_category_id" "region_code") with false.
    cbn iota. rewrite String.eqb_refl. now apply nth_error_repeat.
Qed.

(** X5: [verbose] only switches the message: the value
    [get_most_popular_videos] returns is the same with and without it;
    nothing is printed without it, and nothing is printed when the [try]
    block completes. *)
Theorem X5_verbose_only_prints region_code youtube video_category_id max_results :
  snd (get_most_popular_videos region_code youtube video_category_id
         max_results true)
  = snd (get_most_popular_videos region_code youtube video_category_id
           max_results false) /\
  fst (get_most_popular_videos region_code youtube video_category_id
         max_results false) = [] /\
  (forall df,
     popular_videos_try region_code youtube video_category_id max_results
     = Return df ->
     get_most_popular_videos region_code youtube video_category_id max_results true
     = ([], Return df)).
Proof.
  unfold get_most_popular_videos, try_except_printing.
  destruct (popular_videos_try region_code youtube video_category_id max_results)
    as [df|e|].
  - repeat split. now intros df' [= <-].
  - destruct (isinstance e Exception); repeat split; discriminate.
  - repeat split. discriminate.
Qed.

(** X6: an exception of the client call that is no instance of [Exception]
    (a [KeyboardInterrupt], a [SystemExit]) is not caught by
    [get_most_popular_videos]: it reaches the caller, and nothing is printed
    even with [verbose]. *)
Theorem X6_popular_videos_lets_interrupts_through region_code youtube
    video_category_id max_results verbose e :
  videos_list youtube "snippet, statistics,contentDetails, topicDetails"
    "mostPopular" region_code max_results video_category_id = Raise e ->
  In (exn_class e) [BaseException; KeyboardInterrupt; SystemExit] ->
  get_most_popular_videos region_code youtube video_category_id max_results verbose
  = ([], Raise e).
Proof.
  intros Hcall Hclass.
  unfold get_most_popular_videos, try_except_printing, popular_videos_try.
  rewrite Hcall. cbn [bind].
  assert (E : isinstance e Exception = false).
  { unfold isinstance. simpl in Hclass.
    destruct Hclass as [<-|[<-|[<-|[]]]]; reflexivity. }
  now rewrite E.
Qed.

(** ** get_video_categories: the table *)

Lemma records_data records :
  df_data (DataFrame_of_records records)
  = map (fun c => (c, map (fun r => cell_of (dict_get c r)) records))
        (columns (DataFrame_of_records records)).
Proof. rewrite columns_of_records. reflexivity. Qed.

Lemma filter_labelled {A : Type} (g : string -> bool) (h : string -> A)
    (labels : list string) :
  filter (fun c => g (fst c)) (map (fun l => (l, h l)) labels)
  = map (fun l => (l, h l)) (filter g labels).
Proof.
  induction labels as [|l labels IH]; simpl; [reflexivity|].
  destruct (g l); simpl; now rewrite IH.
Qed.

(** The table [get_video_categories] returns for an array of items: the
    kept columns of the flattened items, renamed, with [region_code]
    written last (or over a column of that label). *)
Lemma categories_table region_code youtube response items df :
  videoCategories_list youtube "snippet" region_code true = Return response ->
  getitem response "items" = Return (JList items) ->
  get_video_categories region_code youtube = Return df ->
  df = set_column "region_code"
         (repeat (Py (JStr region_code)) (List.length items))
         (mkDF (seq 0 (List.length items))
               (map (fun l => (rename_label category_renames l,
                               map (item_cell l) items))
                    (filter (fun l => negb (mem l ["kind"; "etag"; "snippet.channelId"]))
                            (flattened_columns items)))).
Proof.
  intros Hcall Hitems Hget. unfold get_video_categories in Hget.
  rewrite Hcall in Hget. cbn [bind] in Hget.
  rewrite Hitems in Hget. cbn [bind] in Hget.
  bind_inv Hget. rename x into df0. bind_inv Hget. rename x into dropped.
  injection Hget as <-.
  apply drop_Return in Hx0. destruct Hx0 as [Hdropped ->].
  apply json_normalize_list in Hx. destruct Hx as [[_ ->]|[_ ->]].
  { exfalso. apply (Hdropped "kind"). now left. }
  unfold setitem, nrows, rename, flattened_columns. cbn [df_index df_data].
  rewrite records_data.
  rewrite (filter_labelled
             (fun l => negb (mem l ["kind"; "etag"; "snippet.channelId"]))).
  rewrite !map_map. cbn [fst snd].
  unfold DataFrame_of_records at 1 2. cbn [df_index].
  rewrite !length_seq, !length_map. f_equal. f_equal.
  apply map_ext. intros l. now rewrite map_map.
Qed.

Lemma dict_get_set_column_other label values df l :
  l <> label ->
  dict_get l (df_data (set_column label values df)) = dict_get l (df_data df).
Proof.
  intros Hne. unfold set_column. destruct (in_columns label df) eqn:E.
  - cbn [df_data]. induction (df_data df) as [|[k v] data IH]; [reflexivity|].
    cbn [map fst]. destruct (String.eqb_spec k label) as [->|Hk]; cbn [dict_get].
    + destruct (String.eqb_spec l label); [contradiction | assumption].
    + destruct (String.eqb_spec l k); [reflexivity | assumption].
  - cbn [df_data]. destruct (in_dec string_dec l (keys (df_data df))) as [Hin|Hnot].
    + now apply dict_get_app_in.
    + rewrite dict_get_app_notin by assumption. cbn [dict_get].
      destruct (String.eqb_spec l label); [contradiction|].
      symmetry. destruct (dict_get l (df_data df)) eqn:Eg; [|reflexivity].
      exfalso. apply Hnot. apply dict_get_keys. congruence.
Qed.

Lemma dict_get_set_column_same label values df :
  dict_get label (df_data (set_column label values df)) = Some values.
Proof.
  destruct (dict_get label (df_data (set_column label values df))) as [v|] eqn:E.
  - apply dict_get_In in E.
    apply (set_column_values label values df (label, v)) in E; [|reflexivity].
    cbn [snd] in E. now subst v.
  - exfalso. revert E. apply dict_get_keys. apply (set_column_In label values df).
Qed.

Lemma rename_category_inj (labels : list string) l1 l2 :
  ~ In "category_title" labels -> ~ In "assignable" labels ->
  In l1 labels -> In l2 labels ->
  rename_label category_renames l1 = rename_label category_renames l2 -> l1 = l2.
Proof.
  intros Ht Ha H1 H2. unfold rename_label, category_renames. cbn [dict_get].
  repeat match goal with
         | |- context [String.eqb ?a ?b] => destruct (String.eqb_spec a b)
         end;
    intros Heq; subst; try reflexivity; try discriminate; try congruence;
    contradiction.
Qed.

(** X7: in the table [get_video_categories] returns for an array of items,
    row [i] holds [region_code] and, under the renamed label of every kept
    column of the flattened items that the dtype inference leaves alone, the
    value of item [i] ([snippet.title] under [category_title],
    [snippet.assignable] under [assignable], [id] under [id]), provided no
    item already has a field [category_title] or [assignable] and the renamed
    label is not [region_code]. *)
Theorem X7_categories_row_values region_code youtube response items df i item :
  videoCategories_list youtube "snippet" region_code true = Return response ->
  getitem response "items" = Return (JList items) ->
  get_video_categories region_code youtube = Return df ->
  ~ In "category_title" (flattened_columns items) ->
  ~ In "assignable" (flattened_columns items) ->
  nth_error items i = Some item ->
  loc df i "region_code" = Some (Py (JStr region_code)) /\
  (forall l,
     In l (flattened_columns items) ->
     ~ In l ["kind"; "etag"; "snippet.channelId"] ->
     rename_label category_renames l <> "region_code" ->
     kept_by_inference (map (item_cell l) items) = true ->
     loc df i (rename_label category_renames l) = Some (item_cell l item)).
Proof.
  intros Hcall Hitems Hget Htitle Hassignable Hitem.
  rewrite (categories_table _ _ _ _ _ Hcall Hitems Hget).
  assert (Hi : i < List.length items) by (apply nth_error_Some; congruence).
  pose proof (position_of_seq 0 (List.length items) i Hi) as Hpos.
  change (0 + i) with i in Hpos.
  unfold loc. rewrite set_column_index. cbn [df_index]. rewrite Hpos. split.
  - rewrite dict_get_set_column_same. now apply nth_error_repeat.
  - intros l Hl Hkept Hlabel _. rewrite dict_get_set_column_other by assumption.
    cbn [df_data].
    set (kept := filter _ (flattened_columns items)).
    assert (Hin : In l kept).
    { apply filter_In. split; [assumption|]. now apply negb_true_iff, mem_not_In. }
    rewrite (dict_get_labelled (rename_label category_renames)
               (fun l => map (item_cell l) items) kept l).
    + now rewrite nth_error_map, Hitem.
    + intros l' Hl' Heq.
      apply (rename_category_inj (flattened_columns items)); auto.
      now apply filter_In in Hl'.
    + assumption.
Qed.

(** ** get_top_level_comments: errors *)

Lemma comments_table_Raise video_id response e :
  comments_table video_id response = Raise e -> reshaping_error e.
Proof.
  unfold comments_table. intros H.
  apply bind_Raise in H. destruct H as [H|[data [_ H]]];
    [now apply getitem_Raise in H|].
  apply bind_Raise in H. destruct H as [H|[df0 [_ H]]];
    [now apply json_normalize_Raise in H|].
  apply bind_Raise in H. destruct H as [H|[selected [_ H]]]; [|discriminate].
  now apply getitem_list_Raise, KeyError_reshaping in H.
Qed.

(** Once the client has answered, the [try] block of
    [get_top_level_comments] only raises errors of the reshaping steps. *)
Lemma comments_try_Raise video_id youtube_client response e :
  commentThreads_list youtube_client "id,replies,snippet" video_id 100%Z
    "plainText" = Return response ->
  top_level_comments_try video_id youtube_client = Raise e ->
  reshaping_error e.
Proof.
  intros Hcall Htry. unfold top_level_comments_try in Htry.
  rewrite Hcall in Htry. cbn [bind] in Htry.
  apply bind_Raise in Htry. destruct Htry as [Htable|[df [Htable Htry]]];
    [now apply comments_table_Raise in Htable|].
  apply bind_Raise in Htry. destruct Htry as [Hstatement|[u [_ Htry]]].
  { destruct (in_columns "replies.comments" df) eqn:E; [|discriminate].
    destruct (replies_ranking_returns _ _ _ Htable E) as [ranked Hranked].
    rewrite Hranked in Hstatement. discriminate. }
  apply bind_Raise in Htry. destruct Htry as [Hin|[has_token [_ Htry]]];
    [now apply py_in_Raise in Hin|].
  apply bind_Raise in Htry. destruct Htry as [Htoken|[token [_ Htry]]];
    [|discriminate].
  destruct has_token; [now apply getitem_Raise in Htoken | discriminate].
Qed.

(** X8: the expression statement of lines 147-150 has no effect:
    [get_top_level_comments] gives, for every video id and client, what it
    gives with the statement removed. *)
Theorem X8_ranking_statement_is_dead video_id youtube_client :
  get_top_level_comments video_id youtube_client
  = get_top_level_comments_without_ranking video_id youtube_client.
Proof.
  unfold get_top_level_comments, get_top_level_comments_without_ranking.
  f_equal.
  unfold top_level_comments_try, top_level_comments_try_without_ranking.
  destruct (commentThreads_list youtube_client "id,replies,snippet" video_id 100%Z
              "plainText") as [response|e|]; try reflexivity.
  cbn [bind].
  destruct (comments_table video_id response) as [df|e|] eqn:Htable;
    try reflexivity.
  cbn [bind].
  destruct (in_columns "replies.comments" df) eqn:E; [|reflexivity].
  destruct (replies_ranking_returns _ _ _ Htable E) as [ranked ->]. reflexivity.
Qed.

(** X9: once the client has answered, the [except HttpError] clause of
    [get_top_level_comments] never applies: the function gives what its
    [try] block gives, so every error of the reshaping reaches the caller.
    In particular an empty ["items"] array (a video without comments) raises
    [KeyError], and so does a flattened table without one of the columns
    [comment_id], [like_count], [comment_text] after the renaming. *)
Theorem X9_comments_reshaping_errors_reach_caller video_id youtube_client response :
  commentThreads_list youtube_client "id,replies,snippet" video_id 100%Z
    "plainText" = Return response ->
  get_top_level_comments video_id youtube_client
  = top_level_comments_try video_id youtube_client /\
  (getitem response "items" = Return (JList []) ->
   exists e, get_top_level_comments video_id youtube_client = Raise e /\
             exn_class e = KeyError) /\
  (forall data df0 l,
     getitem response "items" = Return data ->
     json_normalize data = Return df0 ->
     In l ["comment_id"; "like_count"; "comment_text"] ->
     ~ In l (columns (rename comment_renames df0)) ->
     exists e, get_top_level_comments video_id youtube_client = Raise e /\
               exn_class e = KeyError).
Proof.
  intros Hcall.
  assert (Hsame : get_top_level_comments video_id youtube_client
                  = top_level_comments_try video_id youtube_client).
  { unfold get_top_level_comments, try_except.
    destruct (top_level_comments_try video_id youtube_client) as [r|e|] eqn:Htry;
      try reflexivity.
    apply (comments_try_Raise _ _ _ _ Hcall) in Htry.
    apply reshaping_error_classes in Htry. destruct Htry as [_ ->]. reflexivity. }
  assert (Hmissing : forall data df0 l,
            getitem response "items" = Return data ->
            json_normalize data = Return df0 ->
            In l ["comment_id"; "like_count"; "comment_text"] ->
            ~ In l (columns (rename comment_renames df0)) ->
            exists e, get_top_level_comments video_id youtube_client = Raise e /\
                      exn_class e = KeyError).
  { intros data df0 l Hitems Hnorm Hl Hnot. rewrite Hsame.
    unfold top_level_comments_try. rewrite Hcall. cbn [bind].
    unfold comments_table. rewrite Hitems. cbn [bind]. rewrite Hnorm. cbn [bind].
    destruct (getitem_list_missing (selected_cols (rename comment_renames df0))
                (rename comment_renames df0) l) as [e [-> Hclass]].
    - apply selected_cols_In. now left.
    - assumption.
    - exists e. now split. }
  split; [assumption|]. split; [|assumption].
  intros Hitems.
  apply (Hmissing (JList []) empty_DataFrame "comment_id");
    [assumption | reflexivity | now left | simpl; auto].
Qed.

(** ** get_top_level_comments: the table *)

Lemma filter_eqb_NoDup (labels : list string) k :
  NoDup labels -> In k labels -> filter (fun l => String.eqb l k) labels = [k].
Proof.
  induction labels as [|l labels IH]; simpl; [contradiction|].
  intros Hnd Hin. inversion Hnd as [|? ? Hl Hnd']; subst.
  destruct (String.eqb_spec l k) as [->|Hne].
  - f_equal. apply filter_none. intros l' Hl'. apply String.eqb_neq.
    intros ->. contradiction.
  - destruct Hin as [Hin|Hin]; [contradiction|]. now apply IH.
Qed.

(** In a renamed table with distinct source labels, a label that only one
    source label is renamed to picks that column. *)
Lemma pick_renamed {A : Type} (mapper : dict string) (h : string -> A)
    (labels : list string) L k :
  NoDup labels -> In k labels ->
  (forall l, In l labels ->
             String.eqb (rename_label mapper l) L = String.eqb l k) ->
  filter (fun c => String.eqb (fst c) L)
         (map (fun l => (rename_label mapper l, h l)) labels)
  = [(rename_label mapper k, h k)].
Proof.
  intros Hnd Hin Hext. rewrite filter_map_swap. cbn [fst].
  rewrite (filter_ext_in _ (fun l => String.eqb l k) labels Hext).
  now rewrite filter_eqb_NoDup.
Qed.

Lemma comment_label_source (labels : list string) L k :
  In (k, L) comment_renames -> ~ In L labels ->
  forall l, In l labels ->
            String.eqb (rename_label comment_renames l) L = String.eqb l k.
Proof.
  intros Hk Hclash l Hl.
  assert (Hne : l <> L) by (intros ->; contradiction).
  unfold rename_label, comment_renames in *. cbn [dict_get].
  simpl in Hk. destruct Hk as [[= <- <-]|[[= <- <-]|[[= <- <-]|[]]]];
    repeat match goal with
           | |- context [String.eqb l ?b] => destruct (String.eqb_spec l b)
           end; subst; try reflexivity; try discriminate; try congruence;
    apply String.eqb_neq; assumption.
Qed.

Lemma replies_label_source l :
  String.eqb (rename_label comment_renames l) "replies.comments"
  = String.eqb l "replies.comments".
Proof.
  unfold rename_label, comment_renames. cbn [dict_get].
  repeat match goal with
         | |- context [String.eqb l ?b] => destruct (String.eqb_spec l b)
         end; subst; try reflexivity; try discriminate.
Qed.

(** The table of line 145 for an array of items none of which already has a
    field [comment_id], [like_count] or [comment_text]. *)
Lemma comments_table_exact video_id response items df :
  getitem response "items" = Return (JList items) ->
  comments_table video_id response = Return df ->
  (forall l, In l ["comment_id"; "like_count"; "comment_text"] ->
             ~ In l (flattened_columns items)) ->
  df = mkDF (seq 0 (List.length items))
         ([("comment_id", map (item_cell "id") items);
           ("like_count",
            map (item_cell "snippet.topLevelComment.snippet.likeCount") items);
           ("comment_text",
            map (item_cell "snippet.topLevelComment.snippet.textDisplay") items)]
          ++ (if mem "replies.comments" (flattened_columns items)
              then [("replies.comments", map (item_cell "replies.comments") items)]
              else [])
          ++ [("video_id", repeat (Py (JStr video_id)) (List.length items))]).
Proof.
  intros Hitems Htable Hclash. apply comments_table_Return in Htable.
  destruct Htable as [data [df0 [Hitems' [Hnorm [Hpresent ->]]]]].
  rewrite Hitems in Hitems'. injection Hitems' as <-.
  apply json_normalize_list in Hnorm. destruct Hnorm as [[_ ->]|[_ ->]].
  { exfalso. apply (Hpresent "comment_id"). apply selected_cols_In. left. now left. }
  fold (flattened_columns items) in *.
  set (records := map record_of items).
  set (df0 := DataFrame_of_records records) in *.
  assert (Hnd : NoDup (flattened_columns items))
    by apply columns_of_records_NoDup.
  assert (Hdata : df_data (rename comment_renames df0)
                  = map (fun l => (rename_label comment_renames l,
                                   map (item_cell l) items))
                        (flattened_columns items)).
  { unfold rename, df0. cbn [df_data]. rewrite records_data, map_map. cbn [fst snd].
    apply map_ext. intros l. unfold records. now rewrite map_map. }
  assert (Hsource : forall k L,
            In (k, L) comment_renames ->
            In L ["comment_id"; "like_count"; "comment_text"] ->
            filter (fun c => String.eqb (fst c) L)
                   (df_data (rename comment_renames df0))
            = [(L, map (item_cell k) items)]).
  { intros k L Hk HL. rewrite Hdata.
    assert (Hin : In k (flattened_columns items)).
    { assert (HinL : In L (columns (rename comment_renames df0)))
        by (apply Hpresent, selected_cols_In; now left).
      unfold columns in HinL. rewrite Hdata, map_map in HinL. cbn [fst] in HinL.
      apply in_map_iff in HinL. destruct HinL as [l [Hl Hlin]].
      pose proof (comment_label_source _ L k Hk (Hclash L HL) l Hlin) as E.
      rewrite Hl, String.eqb_refl in E. symmetry in E.
      apply String.eqb_eq in E. now subst l. }
    rewrite (pick_renamed comment_renames (fun l => map (item_cell l) items)
               (flattened_columns items) L k Hnd Hin
               (comment_label_source _ L k Hk (Hclash L HL))).
    f_equal. f_equal. unfold rename_label. apply dict_get_keys in Hin.
    simpl in Hk.
    destruct Hk as [[= <- <-]|[[= <- <-]|[[= <- <-]|[]]]]; reflexivity. }
  assert (Hreplies : in_columns "replies.comments" (rename comment_renames df0)
                     = mem "replies.comments" (flattened_columns items)).
  { destruct (mem "replies.comments" (flattened_columns items)) eqn:E.
    - apply replies_column_renamed. now apply mem_In.
    - destruct (in_columns "replies.comments" (rename comment_renames df0)) eqn:E';
        [|reflexivity].
      apply replies_column_renamed in E'. apply mem_not_In in E. contradiction. }
  unfold selected_cols. rewrite Hreplies.
  unfold nrows, df0 at 1 3, DataFrame_of_records, records.
  cbn [df_index]. rewrite !length_seq, !length_map. f_equal.
  destruct (mem "replies.comments" (flattened_columns items)) eqn:E;
    cbn [flat_map app];
    rewrite (Hsource "id" "comment_id"),
      (Hsource "snippet.topLevelComment.snippet.likeCount" "like_count"),
      (Hsource "snippet.topLevelComment.snippet.textDisplay" "comment_text");
    try (simpl; tauto); try reflexivity.
  rewrite Hdata.
  rewrite (pick_renamed comment_renames (fun l => map (item_cell l) items)
             (flattened_columns items) "replies.comments" "replies.comments" Hnd).
  - reflexivity.
  - now apply mem_In.
  - intros l _. apply replies_label_source.
Qed.

Lemma comments_try_table video_id youtube_client response df token :
  commentThreads_list youtube_client "id,replies,snippet" video_id 100%Z
    "plainText" = Return response ->
  top_level_comments_try video_id youtube_client = Return (df, token) ->
  comments_table video_id response = Return df.
Proof.
  intros Hcall Htry. apply top_level_comments_try_Return in Htry.
  destruct Htry as [response' [Hcall' [Htable _]]]. congruence.
Qed.

(** X10: after a completed [try] block on an array of items none of which
    already has a field [comment_id], [like_count] or [comment_text], and
    whose four columns read are left alone by the dtype inference (ids and
    texts that are strings, like counts that are all integers, replies that
    are lists or missing), row [i] of the returned table holds the values of
    item [i]: its [id] under [comment_id], the like count and the text of
    its top-level comment, the input [video_id], and, when some item has
    replies, its list of replies ([NaN] when it has none). *)
Theorem X10_comments_row_values video_id youtube_client response items df token
    i item :
  commentThreads_list youtube_client "id,replies,snippet" video_id 100%Z
    "plainText" = Return response ->
  getitem response "items" = Return (JList items) ->
  top_level_comments_try video_id youtube_client = Return (df, token) ->
  (forall l, In l ["comment_id"; "like_count"; "comment_text"] ->
             ~ In l (flattened_columns items)) ->
  (forall l, In l ["id"; "snippet.topLevelComment.snippet.likeCount";
                   "snippet.topLevelComment.snippet.textDisplay";
                   "replies.comments"] ->
             kept_by_inference (map (item_cell l) items) = true) ->
  nth_error items i = Some item ->
  loc df i "comment_id" = Some (item_cell "id" item) /\
  loc df i "like_count"
  = Some (item_cell "snippet.topLevelComment.snippet.likeCount" item) /\
  loc df i "comment_text"
  = Some (item_cell "snippet.topLevelComment.snippet.textDisplay" item) /\
  loc df i "video_id" = Some (Py (JStr video_id)) /\
  loc df i "replies.comments"
  = (if mem "replies.comments" (flattened_columns items)
     then Some (item_cell "replies.comments" item)
     else None).
Proof.
  intros Hcall Hitems Htry Hclash _ Hitem.
  pose proof (comments_try_table _ _ _ _ _ Hcall Htry) as Htable.
  rewrite (comments_table_exact _ _ _ _ Hitems Htable Hclash).
  assert (Hi : i < List.length items) by (apply nth_error_Some; congruence).
  pose proof (position_of_seq 0 (List.length items) i Hi) as Hpos.
  change (0 + i) with i in Hpos.
  unfold loc. cbn [df_index df_data]. rewrite Hpos.
  destruct (mem "replies.comments" (flattened_columns items));
    cbn [app dict_get];
    repeat split;
    repeat match goal with
           | |- context [String.eqb ?a ?b] =>
               let v := eval vm_compute in (String.eqb a b) in
               change (String.eqb a b) with v
           end;
    cbn iota;
    try (now rewrite nth_error_map, Hitem);
    try (now apply nth_error_repeat); reflexivity.
Qed.

(** X11: under the same condition the returned table has its columns in
    the order [comment_id], [like_count], [comment_text], then
    [replies.comments] when some item has replies, then [video_id]; the
    labels are pairwise distinct and every column has one cell per item. *)
Theorem X11_comments_columns_in_order video_id youtube_client response items df
    token :
  commentThreads_list youtube_client "id,replies,snippet" video_id 100%Z
    "plainText" = Return response ->
  getitem response "items" = Return (JList items) ->
  top_level_comments_try video_id youtube_client = Return (df, token) ->
  (forall l, In l ["comment_id"; "like_count"; "comment_text"] ->
             ~ In l (flattened_columns items)) ->
  columns df
  = ["comment_id"; "like_count"; "comment_text"]
    ++ (if mem "replies.comments" (flattened_columns items)
        then ["replies.comments"] else [])
    ++ ["video_id"] /\
  NoDup (columns df) /\
  nrows df = List.length items /\
  well_shaped df.
Proof.
  intros Hcall Hitems Htry Hclash.
  pose proof (comments_try_table _ _ _ _ _ Hcall Htry) as Htable.
  rewrite (comments_table_exact _ _ _ _ Hitems Htable Hclash).
  unfold well_shaped, nrows, columns. cbn [df_index df_data].
  rewrite length_seq.
  destruct (mem "replies.comments" (flattened_columns items));
    cbn [app map fst];
    (split; [reflexivity|]);
    (split; [repeat (apply NoDup_cons; [simpl; intuition discriminate|]);
             apply NoDup_nil|]);
    (split; [reflexivity|]);
    repeat (apply Forall_cons;
            [cbn [snd]; first [apply length_map | apply repeat_length]|]);
    apply Forall_nil.
Qed.

(** ** The table of lines 148-150 *)

Lemma insert_desc_In x l y : In y (insert_desc x l) <-> y = x \/ In y l.
Proof.
  split.
  - intros H. apply (Permutation_in _ (insert_desc_perm x l)) in H.
    simpl in H. intuition.
  - intros H. apply (Permutation_in _ (Permutation_sym (insert_desc_perm x l))).
    simpl. intuition.
Qed.

Lemma insert_desc_sorted x l :
  StronglySorted (fun a b : Z * nat => (fst b <= fst a)%Z) l ->
  StronglySorted (fun a b : Z * nat => (fst b <= fst a)%Z) (insert_desc x l).
Proof.
  induction 1 as [|y l Hsorted IH Hall]; simpl.
  - constructor; constructor.
  - destruct (Z.ltb_spec (fst x) (fst y)) as [Hlt|Hge].
    + constructor; [assumption|]. apply Forall_forall. intros z Hz.
      apply insert_desc_In in Hz. destruct Hz as [->|Hz]; [lia|].
      rewrite Forall_forall in Hall. now apply Hall.
    + constructor; [now constructor|]. constructor; [assumption|].
      apply Forall_forall. intros z Hz. rewrite Forall_forall in Hall.
      specialize (Hall z Hz). lia.
Qed.

Lemma insertion_sort_sorted l :
  StronglySorted (fun a b : Z * nat => (fst b <= fst a)%Z)
                 (fold_right insert_desc [] l).
Proof.
  induction l as [|x l IH]; simpl; [constructor | now apply insert_desc_sorted].
Qed.

Lemma descending_map_fst (l : list (Z * nat)) :
  StronglySorted (fun a b : Z * nat => (fst b <= fst a)%Z) l ->
  descending (map fst l).
Proof.
  unfold descending. induction 1 as [|x l Hsorted IH Hall]; simpl; constructor.
  - assumption.
  - apply Forall_forall. intros k Hk. apply in_map_iff in Hk.
    destruct Hk as [z [<- Hz]]. rewrite Forall_forall in Hall. now apply Hall.
Qed.

Lemma in_combine_seq {A : Type} (ks : list A) start k p :
  In (k, p) (combine ks (seq start (List.length ks))) ->
  start <= p /\ nth_error ks (p - start) = Some k.
Proof.
  revert start. induction ks as [|k0 ks IH]; intros start; simpl; [contradiction|].
  intros [[= -> ->]|Hin].
  - split; [lia|]. now rewrite Nat.sub_diag.
  - apply IH in Hin. destruct Hin as [Hle Hnth]. split; [lia|].
    replace (p - start) with (S (p - S start)) by lia. assumption.
Qed.

(** Taking the cells of an integer column at the sorted positions gives the
    keys in sorted order. *)
Lemma take_sorted_keys (ks : list Z) :
  take NaN (argsort_desc ks) (map (fun k => Py (JNum k)) ks)
  = map (fun k => Py (JNum k))
        (map fst (fold_right insert_desc []
                    (combine ks (seq 0 (List.length ks))))).
Proof.
  unfold take, argsort_desc. rewrite !map_map. apply map_ext_in.
  intros [k p] Hin. cbn [fst snd].
  apply (Permutation_in _ (insertion_sort_perm _)) in Hin.
  apply in_combine_seq in Hin. destruct Hin as [_ Hnth].
  rewrite Nat.sub_0_r in Hnth. apply nth_error_nth.
  now rewrite nth_error_map, Hnth.
Qed.

(** The table of lines 148-150, spelled out from the table of line 145. *)
Lemma replies_ranking_Return video_id response items df ranked :
  getitem response "items" = Return (JList items) ->
  comments_table video_id response = Return df ->
  replies_ranking df = Return ranked ->
  let ks := map len_if_list (map (item_cell "replies.comments") items) in
  List.length ks = List.length items /\
  ranked = mkDF (argsort_desc ks)
             (map (fun c => (fst c, take NaN (argsort_desc ks) (snd c)))
                  (df_data df ++ [("number_replies",
                                   map (fun k => Py (JNum k)) ks)])).
Proof.
  intros Hitems Htable Hrank ks.
  destruct (comments_table_of_items _ _ _ _ Hitems Htable) as [Hindex Hcols].
  split; [unfold ks; now rewrite !length_map|].
  unfold replies_ranking in Hrank. bind_inv Hrank. rename x into df1.
  unfold assign_number_replies in Hx. bind_inv Hx. rename x into series.
  injection Hx as <-.
  apply getitem_column_Return in Hx0.
  assert (Hseries : series = map (item_cell "replies.comments") items).
  { rewrite Forall_forall in Hcols. destruct (Hcols _ Hx0) as [E|[k [Hk Hv]]].
    - discriminate.
    - cbn [fst snd] in Hk, Hv. symmetry in Hk.
      apply rename_label_target in Hk; [now rewrite Hv, Hk|].
      simpl. intuition discriminate. }
  rewrite Hseries in Hrank. clear Hx0 Hseries.
  assert (Hcounts : apply (fun y => JNum (len_if_list y))
                      (map (item_cell "replies.comments") items)
                    = map (fun k => Py (JNum k)) ks).
  { unfold apply, ks. now rewrite !map_map. }
  rewrite Hcounts in Hrank.
  assert (Hnew : in_columns "number_replies" df = false).
  { apply mem_not_In.
    pose proof Htable as Htable'. apply comments_table_Return in Htable'.
    destruct Htable' as [data [df0 [Hitems' [Hnorm _]]]].
    rewrite (comments_table_columns _ _ _ _ _ Hitems' Hnorm Htable).
    simpl. intuition discriminate. }
  rewrite (set_column_new _ _ _ Hnew) in Hrank.
  apply sort_values_desc_Return in Hrank.
  destruct Hrank as [values [ks' [Hin [Hks ->]]]].
  cbn [df_index df_data] in *.
  assert (Hvalues : values = map (fun k => Py (JNum k)) ks).
  { apply in_app_or in Hin. destruct Hin as [Hin|[[= <-]|[]]]; [|reflexivity].
    exfalso. apply mem_not_In in Hnew. apply Hnew.
    unfold columns. now apply (in_map fst) in Hin. }
  subst values.
  assert (Hks' : ks' = ks).
  { clear -Hks. revert ks' Hks. induction ks as [|k ks IH]; intros ks' H; simpl in H.
    - now injection H as <-.
    - destruct (all_some (map int_of_cell (map (fun k => Py (JNum k)) ks)))
        as [r|] eqn:E; [|discriminate].
      injection H as <-. f_equal. now apply IH. }
  subst ks'. f_equal. rewrite Hindex. apply take_seq.
  intros p Hp. apply (Permutation_in _ (argsort_desc_perm ks)) in Hp.
  apply in_seq in Hp. unfold ks in Hp. rewrite !length_map in Hp. lia.
Qed.

(** X12: the table lines 148-150 compute (and drop) is the returned table
    with a [number_replies] column added and its rows reordered: it has the
    same row labels, each once; the added column is in descending order; and
    read by row label and column label it holds the cells of the returned
    table. *)
Theorem X12_ranking_reorders_returned_table video_id youtube_client response
    items df token ranked :
  commentThreads_list youtube_client "id,replies,snippet" video_id 100%Z
    "plainText" = Return response ->
  getitem response "items" = Return (JList items) ->
  top_level_comments_try video_id youtube_client = Return (df, token) ->
  replies_ranking df = Return ranked ->
  Permutation (df_index ranked) (df_index df) /\
  columns ranked = columns df ++ ["number_replies"] /\
  (exists ks,
     dict_get "number_replies" (df_data ranked)
     = Some (map (fun k => Py (JNum k)) ks) /\
     descending ks) /\
  (forall row label,
     In row (df_index df) -> In label (columns df) ->
     loc ranked row label = loc df row label).
Proof.
  intros Hcall Hitems Htry Hrank.
  pose proof (comments_try_table _ _ _ _ _ Hcall Htry) as Htable.
  destruct (comments_table_of_items _ _ _ _ Hitems Htable) as [Hindex Hcols].
  assert (Hnew : ~ In "number_replies" (columns df)).
  { pose proof Htable as Htable'. apply comments_table_Return in Htable'.
    destruct Htable' as [data [df0 [Hitems' [Hnorm _]]]].
    rewrite (comments_table_columns _ _ _ _ _ Hitems' Hnorm Htable).
    simpl. intuition discriminate. }
  destruct (replies_ranking_Return _ _ _ _ _ Hitems Htable Hrank) as [Hlen ->].
  set (ks := map len_if_list (map (item_cell "replies.comments") items)) in *.
  assert (Hperm : Permutation (argsort_desc ks) (seq 0 (List.length items))).
  { rewrite <- Hlen. apply argsort_desc_perm. }
  cbn [df_index df_data]. split; [|split; [|split]].
  - now rewrite Hindex.
  - unfold columns. cbn [df_data]. rewrite map_map. cbn [fst].
    now rewrite map_app.
  - exists (map fst (fold_right insert_desc []
                       (combine ks (seq 0 (List.length ks))))).
    split.
    + rewrite (dict_get_map_values (take NaN (argsort_desc ks))).
      rewrite dict_get_app_notin by assumption.
      cbn [dict_get]. rewrite String.eqb_refl. cbn [option_map].
      now rewrite take_sorted_keys.
    + apply descending_map_fst, insertion_sort_sorted.
  - intros row label Hrow Hlabel. unfold loc. cbn [df_index df_data].
    rewrite Hindex in Hrow |- *. pose proof Hrow as Hlt. apply in_seq in Hlt.
    pose proof (position_of_seq 0 (List.length items) row (proj2 Hlt)) as Hpos.
    change (0 + row) with row in Hpos. rewrite Hpos.
    destruct (position_of_In row (argsort_desc ks)) as [p [Hp Hnth]].
    { now apply (Permutation_in _ (Permutation_sym Hperm)). }
    rewrite Hp. rewrite (dict_get_map_values (take NaN (argsort_desc ks))).
    rewrite dict_get_app_in by assumption.
    destruct (dict_get label (df_data df)) as [values|] eqn:Eget.
    2:{ exfalso. revert Eget. now apply dict_get_keys. }
    cbn [option_map]. unfold take. rewrite nth_error_map, Hnth. cbn [option_map].
    symmetry. apply nth_error_nth'.
    apply dict_get_In in Eget. rewrite Forall_forall in Hcols.
    destruct (Hcols _ Eget) as [E|[k [_ Hv]]].
    + injection E as _ Hv. rewrite Hv, repeat_length. lia.
    + cbn [snd] in Hv. rewrite Hv, length_map. lia.
Qed.

(** ** The three error policies side by side *)

(** X13: an [HttpError] of the client call (or of a class derived from it)
    has three outcomes: [get_video_categories] raises it,
    [get_most_popular_videos] returns the empty table, and
    [get_top_level_comments] returns the empty table and no token. *)
Theorem X13_HttpError_three_policies region_code video_id youtube
    video_category_id max_results verbose e :
  isinstance e HttpError = true ->
  (videoCategories_list youtube "snippet" region_code true = Raise e ->
   get_video_categories region_code youtube = Raise e) /\
  (videos_list youtube "snippet, statistics,contentDetails, topicDetails"
     "mostPopular" region_code max_results video_category_id = Raise e ->
   snd (get_most_popular_videos region_code youtube video_category_id
          max_results verbose) = Return empty_DataFrame) /\
  (commentThreads_list youtube "id,replies,snippet" video_id 100%Z "plainText"
   = Raise e ->
   get_top_level_comments video_id youtube = Return (empty_DataFrame, JNull)).
Proof.
  intros Hhttp.
  assert (Hexc : isinstance e Exception = true).
  { unfold isinstance in *. apply issubclass_HttpError in Hhttp.
    destruct Hhttp as [-> | [-> | ->]]; reflexivity. }
  split; [|split]; intros Hcall.
  - unfold get_video_categories. now rewrite Hcall.
  - unfold get_most_popular_videos, try_except_printing, popular_videos_try.
    rewrite Hcall. cbn [bind]. now rewrite Hexc.
  - unfold get_top_level_comments, try_except, top_level_comments_try.
    rewrite Hcall. cbn [bind]. now rewrite Hhttp.
Qed.

(** ** get_video_categories: the columns *)

(** X14: when no item has a field [category_title], [assignable] or
    [region_code], the table [get_video_categories] returns has the kept
    columns of the flattened items in their order, renamed, then
    [region_code]; the labels are pairwise distinct and the row labels are
    0..N-1. *)
Theorem X14_categories_columns_in_order region_code youtube response items df :
  videoCategories_list youtube "snippet" region_code true = Return response ->
  getitem response "items" = Return (JList items) ->
  get_video_categories region_code youtube = Return df ->
  (forall l, In l ["category_title"; "assignable"; "region_code"] ->
             ~ In l (flattened_columns items)) ->
  columns df
  = map (rename_label category_renames)
        (filter (fun l => negb (mem l ["kind"; "etag"; "snippet.channelId"]))
                (flattened_columns items))
    ++ ["region_code"] /\
  NoDup (columns df) /\
  df_index df = seq 0 (List.length items).
Proof.
  intros Hcall Hitems Hget Hclash.
  rewrite (categories_table _ _ _ _ _ Hcall Hitems Hget).
  set (kept := filter _ (flattened_columns items)).
  assert (Hkept : forall l, In l kept -> In l (flattened_columns items))
    by (intros l Hl; now apply filter_In in Hl).
  assert (Hfresh : ~ In "region_code" (map (rename_label category_renames) kept)).
  { intros Hin. apply in_map_iff in Hin. destruct Hin as [l [Hl Hin]].
    apply rename_label_target in Hl; [|simpl; intuition discriminate].
    subst l. apply (Hclash "region_code"); [simpl; auto | now apply Hkept]. }
  rewrite set_column_new.
  2:{ apply mem_not_In. unfold columns. cbn [df_data]. rewrite map_map. cbn [fst].
      assumption. }
  unfold columns. cbn [df_index df_data]. rewrite map_app, map_map. cbn [fst map].
  split; [reflexivity|]. split; [|reflexivity].
  apply NoDup_app.
  - apply NoDup_map_NoDup_ForallPairs.
    + intros l1 l2 H1 H2.
      apply (rename_category_inj (flattened_columns items)); auto;
        apply Hclash; simpl; auto.
    + apply NoDup_filter, columns_of_records_NoDup.
  - constructor; [auto | constructor].
  - intros t Ht [<-|[]]. contradiction.
Qed.

(** * Further concrete runs *)

Lemma X1_sample_run :
  get_video_categories "GB" (constant_client (Raise (mkExn HttpError "forbidden")))
  = Raise (mkExn HttpError "forbidden") /\
  (exists e, get_video_categories "GB" (constant_client (Return (JObj [])))
             = Raise e /\ exn_class e = KeyError) /\
  (exists e, get_video_categories "GB"
               (constant_client (Return empty_items_response))
             = Raise e /\ exn_class e = KeyError).
Proof.
  split; [|split].
  - apply (proj1 (X1_categories_errors_reach_caller "GB"
                    (constant_client (Raise (mkExn HttpError "forbidden"))))).
    reflexivity.
  - apply (proj1 (proj2 (X1_categories_errors_reach_caller "GB"
                           (constant_client (Return (JObj []))))) []);
      reflexivity.
  - apply (proj2 (proj2 (X1_categories_errors_reach_caller "GB"
                           (constant_client (Return empty_items_response))))
             empty_items_response (JList []) empty_DataFrame "kind");
      try reflexivity; simpl; auto.
Defined.

Lemma X2_sample_run :
  snd (get_most_popular_videos "GB"
         (constant_client (Return empty_items_response)) (Some "10") 50 true)
  = Return empty_DataFrame.
Proof.
  destruct (X2_popular_videos_empty_iff_data_missing "GB"
              (constant_client (Return empty_items_response)) (Some "10") 50 true
              empty_items_response) as [Hiff [_ Hempty]]; [reflexivity|].
  apply Hiff, Hempty. reflexivity.
Defined.

Lemma X3_sample_run :
  df_index sample_mixed_videos_table = [0; 1]%nat /\
  nrows sample_mixed_videos_table = 2%nat /\
  well_shaped sample_mixed_videos_table /\
  NoDup (columns sample_mixed_videos_table).
Proof.
  apply (X3_popular_videos_shape "GB"
           (constant_client (Return sample_mixed_video_response)) None 50
           sample_mixed_video_response sample_mixed_videos sample_mixed_videos_table);
    [reflexivity | reflexivity | vm_compute; reflexivity].
Defined.

Lemma X4_sample_run :
  loc sample_mixed_videos_table 1 "title" = Some (Py (JStr "b")) /\
  loc sample_mixed_videos_table 1 "like_count" = Some NaN /\
  loc sample_mixed_videos_table 0 "like_count" = Some (Py (JStr "30")) /\
  loc sample_mixed_videos_table 1 "video_category_id" = Some (Py JNull).
Proof.
  destruct (X4_popular_videos_row_values "GB"
              (constant_client (Return sample_mixed_video_response)) None 50
              sample_mixed_video_response sample_mixed_videos
              sample_mixed_videos_table 1
              (sample_video_stats "b" [("viewCount", JStr "700")]))
    as [Hrow1 [_ Hcategory]];
    [reflexivity | reflexivity | vm_compute; reflexivity | reflexivity |].
  destruct (X4_popular_videos_row_values "GB"
              (constant_client (Return sample_mixed_video_response)) None 50
              sample_mixed_video_response sample_mixed_videos
              sample_mixed_videos_table 0
              (sample_video_stats "a" [("viewCount", JStr "1000");
                                       ("likeCount", JStr "30")]))
    as [Hrow0 _];
    [reflexivity | reflexivity | vm_compute; reflexivity | reflexivity |].
  split; [|split; [|split]].
  - apply (Hrow1 "snippet.localized.title"); [vm_compute; auto 12 | reflexivity].
  - apply (Hrow1 "statistics.likeCount"); [vm_compute; auto 12 | reflexivity].
  - apply (Hrow0 "statistics.likeCount"); [vm_compute; auto 12 | reflexivity].
  - exact Hcategory.
Defined.

Lemma X5_sample_run :
  get_most_popular_videos "GB"
    (constant_client (Return sample_mixed_video_response)) None 50 true
  = ([], Return sample_mixed_videos_table).
Proof.
  apply (proj2 (proj2 (X5_verbose_only_prints "GB"
                         (constant_client (Return sample_mixed_video_response))
                         None 50))).
  vm_compute. reflexivity.
Defined.

Lemma X6_sample_run :
  get_most_popular_videos "GB"
    (constant_client (Raise (mkExn KeyboardInterrupt ""))) None 50 true
  = ([], Raise (mkExn KeyboardInterrupt "")).
Proof.
  apply X6_popular_videos_lets_interrupts_through; [reflexivity | simpl; auto].
Defined.

Lemma X7_sample_run :
  loc sample_categories_table 1 "category_title"
  = Some (Py (JStr "Autos & Vehicles")) /\
  loc sample_categories_table 1 "region_code" = Some (Py (JStr "GB")).
Proof.
  destruct (X7_categories_row_values "GB"
              (constant_client (Return sample_category_response))
              sample_category_response sample_categories sample_categories_table
              1 (sample_category "2" "Autos & Vehicles"))
    as [Hregion Hrow];
    [reflexivity | reflexivity | vm_compute; reflexivity
     | vm_compute; intuition discriminate | vm_compute; intuition discriminate
     | reflexivity |].
  split; [|exact Hregion].
  apply (Hrow "snippet.title");
    [vm_compute; auto 12 | simpl; intuition discriminate | discriminate
     | reflexivity].
Defined.

Lemma X9_sample_run :
  exists e,
    get_top_level_comments "v1" (constant_client (Return empty_items_response))
    = Raise e /\ exn_class e = KeyError.
Proof.
  destruct (X9_comments_reshaping_errors_reach_caller "v1"
              (constant_client (Return empty_items_response))
              empty_items_response) as [_ [Hempty _]]; [reflexivity|].
  apply Hempty. reflexivity.
Defined.

Lemma X10_sample_run :
  loc sample_comments_table 2 "comment_id" = Some (Py (JStr "c")) /\
  loc sample_comments_table 2 "like_count" = Some (Py (JNum 7)) /\
  loc sample_comments_table 1 "replies.comments" = Some NaN.
Proof.
  destruct (X10_comments_row_values "v1" sample_client sample_comment_response
              sample_comment_items sample_comments_table (JStr "QURTSl9p")
              2 (sample_comment "c" 7 (sample_replies 3)))
    as [Hid [Hlikes _]];
    [reflexivity | reflexivity | vm_compute; reflexivity
     | intros l Hl; vm_compute in Hl |- *; intuition (subst; discriminate)
     | intros l Hl; simpl in Hl;
       destruct Hl as [<-|[<-|[<-|[<-|[]]]]]; vm_compute; reflexivity
     | reflexivity |].
  destruct (X10_comments_row_values "v1" sample_client sample_comment_response
              sample_comment_items sample_comments_table (JStr "QURTSl9p")
              1 (sample_comment "b" 0 []))
    as [_ [_ [_ [_ Hreplies]]]];
    [reflexivity | reflexivity | vm_compute; reflexivity
     | intros l Hl; vm_compute in Hl |- *; intuition (subst; discriminate)
     | intros l Hl; simpl in Hl;
       destruct Hl as [<-|[<-|[<-|[<-|[]]]]]; vm_compute; reflexivity
     | reflexivity |].
  split; [exact Hid|]. split; [exact Hlikes | exact Hreplies].
Defined.

Lemma X11_sample_run :
  columns sample_comments_table
  = ["comment_id"; "like_count"; "comment_text"; "replies.comments"; "video_id"] /\
  NoDup (columns sample_comments_table).
Proof.
  destruct (X11_comments_columns_in_order "v1" sample_client
              sample_comment_response sample_comment_items sample_comments_table
              (JStr "QURTSl9p"))
    as [Hcolumns [Hnodup _]];
    [reflexivity | reflexivity | vm_compute; reflexivity
     | intros l Hl; vm_compute in Hl |- *; intuition (subst; discriminate) |].
  split; [exact Hcolumns | exact Hnodup].
Defined.

Lemma X12_sample_run :
  exists ranked,
    replies_ranking sample_comments_table = Return ranked /\
    df_index ranked = [2; 0; 1]%nat /\
    Permutation (df_index ranked) (df_index sample_comments_table) /\
    loc ranked 2 "comment_id" = loc sample_comments_table 2 "comment_id".
Proof.
  eexists. split; [vm_compute; reflexivity|]. split; [reflexivity|].
  match goal with
  | |- Permutation (df_index ?r) _ /\ _ =>
      destruct (X12_ranking_reorders_returned_table "v1" sample_client
                  sample_comment_response sample_comment_items
                  sample_comments_table (JStr "QURTSl9p") r)
        as [Hperm [_ [_ Hloc]]];
      [reflexivity | reflexivity | vm_compute; reflexivity
       | vm_compute; reflexivity |]
  end.
  split; [exact Hperm|]. apply Hloc; vm_compute; auto 12.
Defined.

Lemma X13_sample_run :
  get_video_categories "GB" (constant_client (Raise (mkExn HttpError "forbidden")))
  = Raise (mkExn HttpError "forbidden") /\
  snd (get_most_popular_videos "GB"
         (constant_client (Raise (mkExn HttpError "forbidden"))) None 50 false)
  = Return empty_DataFrame /\
  get_top_level_comments "v1"
    (constant_client (Raise (mkExn HttpError "forbidden")))
  = Return (empty_DataFrame, JNull).
Proof.
  destruct (X13_HttpError_three_policies "GB" "v1"
              (constant_client (Raise (mkExn HttpError "forbidden"))) None 50
              false (mkExn HttpError "forbidden"))
    as [Hcategories [Hvideos Hcomments]]; [reflexivity|].
  split; [now apply Hcategories|]. split; [now apply Hvideos | now apply Hcomments].
Defined.

Lemma X14_sample_run :
  columns sample_categories_table
  = ["id"; "category_title"; "assignable"; "region_code"] /\
  NoDup (columns sample_categories_table).
Proof.
  destruct (X14_categories_columns_in_order "GB"
              (constant_client (Return sample_category_response))
              sample_category_response sample_categories sample_categories_table)
    as [_ [Hnodup _]];
    [reflexivity | reflexivity | vm_compute; reflexivity
     | intros l Hl; vm_compute in Hl |- *; intuition (subst; discriminate) |].
  split; [reflexivity | exact Hnodup].
Defined.
